(** * BaseBuilder of lavas-core-vue: skeleton routes and the SPA webpack config

    A shallow embedding of [core/builder/base-builder.js].  The builder is a
    JavaScript class whose methods are [async] functions mutating shared
    objects (the config, the route descriptors, the webpack config), reading
    the file system and writing generated files.  Embedded here:

    - route descriptors live in a store ([heap]) and are referred to by
      location, so that the in-place updates of [validateSkeletonRoutes] and
      [addSkeletonPlugin] are seen through every reference;
    - every method body is a computation in a state-and-exception monad;
      [async] turns a body into a call that always returns a settled promise
      and [await] turns the promise back into a value or an exception;
    - collaborators that are not part of the file (node's [path], [fs-extra],
      [lodash.template], the webpack config factory, the constants module and
      the path utilities) are the fields of the class [Platform]. *)

From Stdlib Require Import Ascii String.
From stdpp Require Import base option list strings.

Set Default Proof Using "Type".
Open Scope string_scope.

(** ** Values *)

(** A location of a route descriptor in the store. *)
Abbreviation loc := nat (only parsing).

(** A skeleton route descriptor: a JavaScript object whose properties may be
    absent ([None] is [undefined]).  The properties are strings, as a config
    writes them; a route whose [componentPath] is another kind of value is
    outside the embedding. *)
Record route := mkRoute {
  path : option string;
  componentPath : option string;
  skeletonId : option string;
  componentName : option string;
  componentNameInDash : option string
}.

(** Truthiness of a property holding a string or [undefined]. *)
Definition truthy (v : option string) : bool :=
  match v with
  | Some s => negb (String.eqb s "")
  | None => false
  end.

(** Interpolation [${v}] inside a template literal. *)
Definition interp (v : option string) : string :=
  match v with
  | Some s => s
  | None => "undefined"
  end.

(** [a || b] on such properties. *)
Definition or_else (a b : option string) : option string :=
  if truthy a then a else b.

Definition set_componentPath (p : string) (r : route) : route :=
  {| path := path r; componentPath := Some p; skeletonId := skeletonId r;
     componentName := componentName r;
     componentNameInDash := componentNameInDash r |}.

(** webpack's [resolve.alias]: an object from alias keys to directories. *)
Definition Alias := list (string * string).

(** ** Configuration objects *)

Record Globals := mkGlobals { rootDir : string }.
Record Build := mkBuild { ssr : bool }.
Record Router := mkRouter { mode : string; base : option string }.
Record Skeleton := mkSkeleton { enable : bool; routes : option (list loc) }.

Record Config := mkConfig {
  globals : Globals;
  build : Build;
  router : Router;
  skeleton : option Skeleton
}.

Record Resolve := mkResolve { alias : Alias }.

Record Minify := mkMinify {
  removeComments : bool;
  collapseWhitespace : bool;
  removeAttributeQuotes : bool
}.

(** Options handed to [new HtmlWebpackPlugin]; its [config] property is a
    reference to the builder's config and carries no data of its own. *)
Record HtmlOptions := mkHtmlOptions {
  filename : string;
  template : string;
  inject : bool;
  minify : Minify;
  favicon : string;
  chunksSortMode : string;
  cache : bool;
  chunks : list string
}.

(** A webpack configuration object and the plugins it lists. *)
Inductive WebpackCfg :=
| mkWebpackCfg (entry : list (string * list string)) (name : string)
    (context : string) (plugins : list Plugin) (resolve : Resolve)
with Plugin :=
| OtherPlugin (id : string)
| HtmlWebpackPlugin (o : HtmlOptions)
| SkeletonWebpackPlugin (webpackConfig : WebpackCfg) (quiet : bool)
    (router_mode : string) (router_routes : list loc) (minimize : bool).

Definition entry (c : WebpackCfg) := let 'mkWebpackCfg e _ _ _ _ := c in e.
Definition name (c : WebpackCfg) := let 'mkWebpackCfg _ n _ _ _ := c in n.
Definition context (c : WebpackCfg) := let 'mkWebpackCfg _ _ x _ _ := c in x.
Definition plugins (c : WebpackCfg) := let 'mkWebpackCfg _ _ _ p _ := c in p.
Definition resolve (c : WebpackCfg) := let 'mkWebpackCfg _ _ _ _ r := c in r.

Definition set_entry e (c : WebpackCfg) :=
  mkWebpackCfg e (name c) (context c) (plugins c) (resolve c).
Definition set_name n (c : WebpackCfg) :=
  mkWebpackCfg (entry c) n (context c) (plugins c) (resolve c).
Definition set_context x (c : WebpackCfg) :=
  mkWebpackCfg (entry c) (name c) x (plugins c) (resolve c).
Definition set_plugins p (c : WebpackCfg) :=
  mkWebpackCfg (entry c) (name c) (context c) p (resolve c).

(** [obj[k] = v] on an object used as a dictionary: the key keeps its place
    when present and is appended otherwise. *)
Fixpoint obj_set {V} (k : string) (v : V) (o : list (string * V)) :
    list (string * V) :=
  match o with
  | [] => [(k, v)]
  | (k', v') :: o' =>
      if String.eqb k' k then (k, v) :: o' else (k', v') :: obj_set k v o'
  end.

(** ** Exceptions, completions and promises *)

Inductive exn :=
| Error (msg : string)                (* [new Error(msg)] of this file *)
| TypeError (msg : string)            (* property access on [undefined] *)
| SystemError (syscall p : string)    (* a rejected file system call *)
| TemplateError (msg : string).       (* raised while rendering a template *)

(** The outcome of evaluating a statement or a call. *)
Inductive completion (A : Type) :=
| Return (a : A)
| Throw (e : exn).
Arguments Return {A} a.
Arguments Throw {A} e.

(** A settled promise. *)
Inductive promise (A : Type) :=
| Fulfilled (a : A)
| Rejected (e : exn).
Arguments Fulfilled {A} a.
Arguments Rejected {A} e.

(** What [validateSkeletonRoutes] resolves to: [false] or [{msg}]. *)
Inductive verdict :=
| VFalse
| VError (msg : string).

(** [error && error.msg] *)
Definition has_msg (v : verdict) : bool :=
  match v with
  | VFalse => false
  | VError m => negb (String.eqb m "")
  end.

(** A watcher registered through [addWatcher]; the callback of
    [addHtmlPlugin] rewrites the template with the captured base URL. *)
Record watcher := mkWatcher {
  watched : string;
  event : string;
  rewrite_baseUrl : string
}.

(** ** Collaborators *)

Class Platform := {
  FS : Type;
  (* fs-extra *)
  pathExists : FS → string → bool;
  readFile : FS → string → option string;
  (* [this.writeFile], installed by the subclass *)
  writeFile : string → string → FS → option FS;
  (* path *)
  join : list string → string;
  basename : string → string → string;
  dirname : string;
  (* ../utils/path *)
  assetsPath : string → string;
  resolveAliasPath : Alias → string → string;
  camelCaseToDash : string → string;
  (* ../constants *)
  TEMPLATE_HTML : string;
  DEFAULT_ENTRY_NAME : string;
  DEFAULT_SKELETON_PATH : string;
  (* ../utils/template and lodash.template; rendering a template runs the
     code the template holds and may throw *)
  templateUtil_client : string → string → string + string;
  lodash_template : string → list route → string + string;
  (* ../webpack *)
  webpackConfig_client : Config → WebpackCfg;
  webpackConfig_server : Config → bool → WebpackCfg
}.

Section BaseBuilder.
Context `{Platform}.

(** ** The builder and its world *)

Record state := mkState {
  config : Config;               (* [this.config], shared with the core *)
  heap : list route;             (* the route descriptor objects *)
  fs : FS;                       (* the file system *)
  console : list string;         (* lines printed by [console.error] *)
  skeletonEnabled : bool;        (* [this.skeletonEnabled] *)
  isDev : bool;                  (* [this.isDev] *)
  watchers : list watcher        (* registrations made by [addWatcher] *)
}.

Definition set_heap h (s : state) : state :=
  mkState (config s) h (fs s) (console s) (skeletonEnabled s) (isDev s)
    (watchers s).
Definition set_fs f (s : state) : state :=
  mkState (config s) (heap s) f (console s) (skeletonEnabled s) (isDev s)
    (watchers s).
Definition set_config c (s : state) : state :=
  mkState c (heap s) (fs s) (console s) (skeletonEnabled s) (isDev s)
    (watchers s).
Definition set_console l (s : state) : state :=
  mkState (config s) (heap s) (fs s) l (skeletonEnabled s) (isDev s)
    (watchers s).
Definition set_skeletonEnabled b (s : state) : state :=
  mkState (config s) (heap s) (fs s) (console s) b (isDev s) (watchers s).
Definition set_watchers w (s : state) : state :=
  mkState (config s) (heap s) (fs s) (console s) (skeletonEnabled s)
    (isDev s) w.

(** ** The monad of method bodies *)

Definition M (A : Type) : Type := state → completion A * state.

Definition ret {A} (a : A) : M A := fun s => (Return a, s).
Definition throw {A} (e : exn) : M A := fun s => (Throw e, s).
Definition bind {A B} (m : M A) (k : A → M B) : M B :=
  fun s =>
    match m s with
    | (Return a, s') => k a s'
    | (Throw e, s') => (Throw e, s')
    end.

Notation "'let!' x ':=' m 'in' k" := (bind m (fun x => k))
  (at level 10, x pattern, m at level 100, k at level 200).
Notation "m ';;;' k" := (bind m (fun _ => k))
  (at level 100, k at level 200, right associativity).

Definition get : M state := fun s => (Return s, s).
Definition modify (f : state → state) : M unit := fun s => (Return tt, f s).

(** An [async] function never throws to its caller: the call returns a
    promise that is rejected when the body throws. *)
Definition async {A} (body : M A) : M (promise A) :=
  fun s =>
    match body s with
    | (Return a, s') => (Return (Fulfilled a), s')
    | (Throw e, s') => (Return (Rejected e), s')
    end.

(** [await call]: the value of a fulfilled promise, or the rejection reason
    thrown at the point of the [await]. *)
Definition await {A} (call : M (promise A)) : M A :=
  let! p := call in
  match p with
  | Fulfilled a => ret a
  | Rejected e => throw e
  end.

(** ** Primitive actions *)

(** Reading the object behind a reference; a reference that designates no
    object behaves as [undefined], whose property access is a TypeError. *)
Definition deref (l : loc) : M route :=
  fun s =>
    match heap s !! l with
    | Some r => (Return r, s)
    | None => (Throw (TypeError "Cannot read property of undefined"), s)
    end.

(** Updating an object in place. *)
Definition update (l : loc) (f : route → route) : M unit :=
  let! r := deref l in
  modify (fun s => set_heap (<[l := f r]> (heap s)) s).

(** Creating a new object. *)
Definition alloc (r : route) : M loc :=
  fun s => (Return (length (heap s)), set_heap (heap s ++ [r]) s).

Definition fs_pathExists (p : string) : M (promise bool) :=
  async (fun s => (Return (pathExists (fs s) p), s)).

Definition fs_readFile (p : string) : M (promise string) :=
  async (fun s =>
    match readFile (fs s) p with
    | Some c => (Return c, s)
    | None => (Throw (SystemError "open" p), s)
    end).

Definition this_writeFile (p content : string) : M (promise unit) :=
  async (fun s =>
    match writeFile p content (fs s) with
    | Some f => (Return tt, set_fs f s)
    | None => (Throw (SystemError "write" p), s)
    end).

Definition console_error (msg : string) : M unit :=
  modify (fun s => set_console (console s ++ [msg]) s).

(** ** validateSkeletonRoutes *)

(** The inner loop over [resolvedPaths]: the first candidate that exists is
    stored in the route and ends the loop. *)
Fixpoint try_resolvedPaths (currentRoute : loc) (resolvedPaths : list string)
    : M bool :=
  match resolvedPaths with
  | [] => ret false
  | p :: rest =>
      let! found := await (fs_pathExists p) in
      if found : bool then
        update currentRoute (set_componentPath p);;;
        ret true
      else try_resolvedPaths currentRoute rest
  end.

(** The outer loop over the routes. *)
Fixpoint validate_loop (rts : list loc) (al : Alias) : M verdict :=
  match rts with
  | [] => ret VFalse
  | currentRoute :: rest =>
      let! r := deref currentRoute in
      if negb (truthy (componentPath r)) then
        ret (VError ("[Lavas] componentPath for " +:+ interp (path r) +:+
          " is required."))
      else
        match componentPath r with
        | None => throw (TypeError "Path must be a string")
        | Some cp =>
            let! s := get in
            let! isComponentPathResolved :=
              try_resolvedPaths currentRoute
                [join [rootDir (globals (config s)); cp];
                 resolveAliasPath al cp] in
            if negb isComponentPathResolved then
              let! r' := deref currentRoute in
              ret (VError ("[Lavas] " +:+ interp (componentPath r') +:+
                " is not existed during the process of generating skeleton."))
            else validate_loop rest al
        end
  end.

Definition validateSkeletonRoutes (rts : list loc) (al : Alias)
    : M (promise verdict) :=
  async (validate_loop rts al).

(** ** Generated files *)

Definition templatesPath (p : string) : string :=
  join [dirname; "../templates"; p].

Definition lavasPath (p : string) : M string :=
  let! s := get in
  ret (join [rootDir (globals (config s)); "./.lavas"; p]).

Definition writeFileToLavasDir (p content : string) : M (promise string) :=
  async (
    let! resolvedPath := lavasPath p in
    await (this_writeFile resolvedPath content);;;
    ret resolvedPath).

Fixpoint mapM {A B} (f : A → M B) (l : list A) : M (list B) :=
  match l with
  | [] => ret []
  | a :: l' =>
      let! b := f a in
      let! bs := mapM f l' in
      ret (b :: bs)
  end.

Fixpoint forEach {A} (f : A → M unit) (l : list A) : M unit :=
  match l with
  | [] => ret tt
  | a :: l' => f a;;; forEach f l'
  end.

(** The template is rendered over the route objects of the array. *)
Definition writeSkeletonEntry (skeletons : list loc) : M (promise string) :=
  async (
    let skeletonEntryTemplate := templatesPath "entry-skeleton.tmpl" in
    let! source := await (fs_readFile skeletonEntryTemplate) in
    let! objects := mapM deref skeletons in
    match lodash_template source objects with
    | inl msg => throw (TemplateError msg)
    | inr text => await (writeFileToLavasDir "skeleton.js" text)
    end).

(** ** addHtmlPlugin *)

(** [this.addWatcher], supplied by the development builder. *)
Definition addWatcher (p ev baseUrl : string) : M unit :=
  modify (fun s => set_watchers (watchers s ++ [mkWatcher p ev baseUrl]) s).

Definition html_options (htmlFilename resolvedTemplatePath : string)
    : HtmlOptions :=
  {| filename := htmlFilename;
     template := resolvedTemplatePath;
     inject := true;
     minify := {| removeComments := true; collapseWhitespace := true;
                  removeAttributeQuotes := true |};
     favicon := assetsPath "img/icons/favicon.ico";
     chunksSortMode := "dependency";
     cache := false;
     chunks := ["manifest"; "vue"; "vendor"; DEFAULT_ENTRY_NAME] |}.

Definition template_required : string :=
  TEMPLATE_HTML +:+ " required for entry: " +:+ DEFAULT_ENTRY_NAME.

(** The webpack config object is updated in place by the method; the
    embedding hands the updated object back as the value of the promise. *)
Definition addHtmlPlugin (spaConfig : WebpackCfg) (baseUrl : option string)
    (watcherEnabled : bool) : M (promise WebpackCfg) :=
  async (
    let baseUrl := default "/" baseUrl in
    let! s := get in
    let rootDir := rootDir (globals (config s)) in
    let htmlFilename := DEFAULT_ENTRY_NAME +:+ ".html" in
    let customTemplatePath := join [rootDir; "core/" +:+ TEMPLATE_HTML] in
    let! present := await (fs_pathExists customTemplatePath) in
    if negb present then throw (Error template_required)
    else
      let! source := await (fs_readFile customTemplatePath) in
      match templateUtil_client source baseUrl with
      | inl msg => throw (TemplateError msg)
      | inr text =>
          let! resolvedTemplatePath :=
            await (writeFileToLavasDir TEMPLATE_HTML text) in
          let spaConfig :=
            set_plugins
              (HtmlWebpackPlugin
                 (html_options htmlFilename resolvedTemplatePath)
               :: plugins spaConfig) spaConfig in
          (if watcherEnabled then
             addWatcher customTemplatePath "change" baseUrl
           else ret tt);;;
          ret spaConfig
      end).

(** ** addSkeletonPlugin *)

Definition default_route : route :=
  {| path := Some "*"; componentPath := Some DEFAULT_SKELETON_PATH;
     skeletonId := None; componentName := None;
     componentNameInDash := None |}.

Definition set_routes (rts : list loc) (c : Config) : Config :=
  {| globals := globals c; build := build c; router := router c;
     skeleton :=
       (fun sk => mkSkeleton (enable sk) (Some rts)) <$> skeleton c |}.

(** The three assignments of the [forEach] callback. *)
Definition annotate (cp : string) (r : route) : route :=
  let componentName := basename cp ".vue" in
  let componentNameInDash := camelCaseToDash componentName in
  {| path := path r; componentPath := componentPath r;
     skeletonId := or_else (skeletonId r) (Some componentNameInDash);
     componentName := Some componentName;
     componentNameInDash := Some componentNameInDash |}.

Definition annotate_route (l : loc) : M unit :=
  let! r := deref l in
  match componentPath r with
  | None => throw (TypeError "Path must be a string")
  | Some cp => update l (annotate cp)
  end.

(** [skeleton.routes] after the default has been installed when needed: the
    array the rest of the method works on. *)
Definition skeleton_routes : M (list loc) :=
  let! s := get in
  match skeleton (config s) with
  | None => throw (TypeError "Cannot read property 'routes' of undefined")
  | Some sk =>
      match routes sk with
      | Some (l :: rts) => ret (l :: rts)
      | _ =>
          let! l := alloc default_route in
          modify (fun s => set_config (set_routes [l] (config s)) s);;;
          ret [l]
      end
  end.

Definition addSkeletonPlugin (spaConfig : WebpackCfg)
    : M (promise WebpackCfg) :=
  async (
    let! s := get in
    let router := router (config s) in
    let! rts := skeleton_routes in
    let! error :=
      await (validateSkeletonRoutes rts (alias (resolve spaConfig))) in
    if has_msg error then
      match error with
      | VError msg => console_error msg
      | VFalse => ret tt
      end;;;
      ret spaConfig
    else
      forEach annotate_route rts;;;
      modify (set_skeletonEnabled true);;;
      let! entryPath := await (writeSkeletonEntry rts) in
      let skeletonEntries := obj_set DEFAULT_ENTRY_NAME [entryPath] [] in
      let! s := get in
      let skeletonConfig := webpackConfig_server (config s) true in
      let skeletonConfig :=
        set_plugins (removelast (plugins skeletonConfig)) skeletonConfig in
      let skeletonConfig := set_entry skeletonEntries skeletonConfig in
      ret (set_plugins
             (plugins spaConfig ++
                [SkeletonWebpackPlugin skeletonConfig true (mode router) rts
                   (negb (isDev s))])
             spaConfig)).

(** ** createSPAConfig *)

Definition createSPAConfig (watcherEnabled : bool) : M (promise WebpackCfg) :=
  async (
    let! s := get in
    let rootDir := rootDir (globals (config s)) in
    let spaConfig := webpackConfig_client (config s) in
    let spaConfig := set_entry [] spaConfig in
    let spaConfig := set_name "spaclient" spaConfig in
    let spaConfig := set_context rootDir spaConfig in
    if negb (ssr (build (config s))) then
      let spaConfig :=
        set_entry
          (obj_set DEFAULT_ENTRY_NAME ["./core/entry-client.js"]
             (entry spaConfig)) spaConfig in
      let! spaConfig :=
        await (addHtmlPlugin spaConfig (base (router (config s)))
                 watcherEnabled) in
      match skeleton (config s) with
      | Some sk =>
          if enable sk then await (addSkeletonPlugin spaConfig)
          else ret spaConfig
      | None => ret spaConfig
      end
    else ret spaConfig).

(** ** Reading the states of the loop *)

(** The state after [currentRoute.componentPath = p]. *)
Definition assigned (l : loc) (p : string) (r : route) (s : state) : state :=
  set_heap (<[l := set_componentPath p r]> (heap s)) s.

Definition msg_required (r : route) : string :=
  "[Lavas] componentPath for " +:+ interp (path r) +:+ " is required.".

Definition msg_not_existed (cp : string) : string :=
  "[Lavas] " +:+ cp +:+
  " is not existed during the process of generating skeleton.".

(** The path tested by [addHtmlPlugin]. *)
Definition customTemplatePath (s : state) : string :=
  join [rootDir (globals (config s)); "core/" +:+ TEMPLATE_HTML].

(** The state after the optional registration of the template watcher. *)
Definition watching (w : bool) (baseUrl : string) (s : state) : state :=
  if w then
    set_watchers
      (watchers s ++ [mkWatcher (customTemplatePath s) "change" baseUrl]) s
  else s.

(** The [else] branch of [addSkeletonPlugin], taken when validation reports
    no error. *)
Definition skeleton_bundle (rts : list loc) (spaConfig : WebpackCfg)
    (router : Router) : M WebpackCfg :=
  forEach annotate_route rts;;;
  modify (set_skeletonEnabled true);;;
  let! entryPath := await (writeSkeletonEntry rts) in
  let skeletonEntries := obj_set DEFAULT_ENTRY_NAME [entryPath] [] in
  let! s := get in
  let skeletonConfig := webpackConfig_server (config s) true in
  let skeletonConfig :=
    set_plugins (removelast (plugins skeletonConfig)) skeletonConfig in
  let skeletonConfig := set_entry skeletonEntries skeletonConfig in
  ret (set_plugins
         (plugins spaConfig ++
            [SkeletonWebpackPlugin skeletonConfig true (mode router) rts
               (negb (isDev s))])
         spaConfig).

(** What the [forEach] callback makes of a route that has a component
    path. *)
Definition annotated (r : route) : route :=
  annotate (interp (componentPath r)) r.

(** The config [createSPAConfig] starts from: the client config with its
    entries cleared, renamed and rooted at [rootDir]. *)
Definition spa_base (s : state) : WebpackCfg :=
  set_context (rootDir (globals (config s)))
    (set_name "spaclient" (set_entry [] (webpackConfig_client (config s)))).

(** The same with the client entry, as handed to [addHtmlPlugin]. *)
Definition spa_client (s : state) : WebpackCfg :=
  set_entry [(DEFAULT_ENTRY_NAME, ["./core/entry-client.js"])] (spa_base s).

End BaseBuilder.

(** ** The other generated files

    [writeRuntimeConfig] and [writeMiddleware] need collaborators of their
    own: the JSON utilities, the list of runtime items, the name of the
    runtime config file and the rendering of the middleware template. *)

Class Runtime := {
  Json : Type;
  Items : Type;
  (* ../config-reader and ../constants *)
  RUMTIME_ITEMS : Items;
  CONFIG_FILE : string;
  (* ../utils/json; the config is picked together with the objects it
     refers to *)
  JsonUtil_deepPick : Config → list route → Items → Json;
  JsonUtil_stringify : Json → nat → string;
  (* lodash.template applied to [{isEmpty}] *)
  lodash_template_isEmpty : string → bool → string + string
}.

Section RuntimeFiles.
Context `{Platform} `{Runtime}.

Notation "'let!' x ':=' m 'in' k" := (bind m (fun x => k))
  (at level 10, x pattern, m at level 100, k at level 200).
Notation "m ';;;' k" := (bind m (fun _ => k))
  (at level 100, k at level 200, right associativity).

Definition writeRuntimeConfig : M (promise unit) :=
  async (
    let! s := get in
    let filteredConfig :=
      JsonUtil_deepPick (config s) (heap s) RUMTIME_ITEMS in
    await (writeFileToLavasDir CONFIG_FILE
             (JsonUtil_stringify filteredConfig 4));;;
    ret tt).

Definition writeMiddleware : M (promise unit) :=
  async (
    let middlewareTemplate := templatesPath "middleware.tmpl" in
    let! s := get in
    let! present :=
      await (fs_pathExists
               (join [rootDir (globals (config s)); "middlewares"])) in
    let isEmpty := negb present in
    let! source := await (fs_readFile middlewareTemplate) in
    match lodash_template_isEmpty source isEmpty with
    | inl msg => throw (TemplateError msg)
    | inr text =>
        await (writeFileToLavasDir "middleware.js" text);;;
        ret tt
    end).

End RuntimeFiles.

(** ** A small in-memory platform

    Files are an association list from paths to contents; the path helpers
    are naive versions of the library functions, enough to run the builder
    on examples. *)

Module Demo.

Definition files := list (string * string).

Fixpoint read (f : files) (p : string) : option string :=
  match f with
  | [] => None
  | (q, c) :: f' => if String.eqb q p then Some c else read f' p
  end.

Definition present (f : files) (p : string) : bool :=
  match read f p with Some _ => true | None => false end.

Definition write (p c : string) (f : files) : option files :=
  Some ((p, c) :: f).

(** A segment without its leading [/] or [./]. *)
Definition segment (p : string) : string :=
  match p with
  | String "/" p' => p'
  | String "." (String "/" p') => p'
  | _ => p
  end.

Definition path_join (l : list string) : string :=
  match l with
  | [] => "."
  | p :: l' => String.concat "/" (p :: (segment <$> l'))
  end.

Fixpoint has_slash (s : string) : bool :=
  match s with
  | EmptyString => false
  | String c s' => if Ascii.eqb c "/"%char then true else has_slash s'
  end.

Fixpoint last_segment (s : string) : string :=
  match s with
  | EmptyString => EmptyString
  | String c s' =>
      if has_slash s' then last_segment s'
      else if Ascii.eqb c "/"%char then s' else String c s'
  end.

Definition strip_suffix (ext s : string) : string :=
  let n := String.length s - String.length ext in
  if String.eqb (substring n (String.length ext) s) ext then substring 0 n s
  else s.

Definition path_basename (p ext : string) : string :=
  strip_suffix ext (last_segment p).

Definition is_upper (c : Ascii.ascii) : bool :=
  let n := Ascii.nat_of_ascii c in Nat.leb 65 n && Nat.leb n 90.

Definition is_lower (c : Ascii.ascii) : bool :=
  let n := Ascii.nat_of_ascii c in Nat.leb 97 n && Nat.leb n 122.

Definition to_lower (c : Ascii.ascii) : Ascii.ascii :=
  if is_upper c then Ascii.ascii_of_nat (Ascii.nat_of_ascii c + 32) else c.

Fixpoint dash (prev_lower : bool) (s : string) : string :=
  match s with
  | EmptyString => EmptyString
  | String c s' =>
      let rest := String (to_lower c) (dash (is_lower c) s') in
      if prev_lower && is_upper c then String "-"%char rest else rest
  end.

Definition camel_to_dash (s : string) : string := dash false s.

Fixpoint alias_path (al : Alias) (p : string) : string :=
  match al with
  | [] => p
  | (k, dir) :: al' =>
      if String.prefix k p then
        path_join [dir; substring (String.length k) (String.length p) p]
      else alias_path al' p
  end.

Definition client (c : Config) : WebpackCfg :=
  mkWebpackCfg [("app", ["./src/app.js"])] "client" "" [OtherPlugin "define"]
    (mkResolve [("@", rootDir (globals c))]).

Definition server (c : Config) (cssExtract : bool) : WebpackCfg :=
  mkWebpackCfg [] "server" ""
    [OtherPlugin "define"; OtherPlugin "vue-ssr-client"]
    (mkResolve [("@", rootDir (globals c))]).

Definition render (source : string) (skeletons : list route)
    : string + string :=
  inr (source +:+
       String.concat ","
         ((fun r => interp (skeletonId r)) <$> skeletons)).

#[global] Instance platform : Platform := {|
  FS := files;
  pathExists := present;
  readFile := read;
  writeFile := write;
  join := path_join;
  basename := path_basename;
  dirname := "/lavas/core/builder";
  assetsPath := fun p => "static/" +:+ p;
  resolveAliasPath := alias_path;
  camelCaseToDash := camel_to_dash;
  TEMPLATE_HTML := "index.html.tmpl";
  DEFAULT_ENTRY_NAME := "main";
  DEFAULT_SKELETON_PATH := "@/core/Skeleton.vue";
  templateUtil_client := fun source baseUrl => inr (baseUrl +:+ source);
  lodash_template := render;
  webpackConfig_client := client;
  webpackConfig_server := server
|}.

Definition user_route (p cp : string) : route :=
  mkRoute (Some p) (Some cp) None None None.

Definition project (sk : option Skeleton) (ssr : bool) : Config :=
  mkConfig (mkGlobals "/app") (mkBuild ssr) (mkRouter "history" None) sk.

Definition disk : files :=
  [("/app/core/index.html.tmpl", "<html></html>");
   ("/app/core/Skeleton.vue", "<template/>");
   ("/app/pages/HomeSkeleton.vue", "<template/>");
   ("/lavas/core/builder/../templates/entry-skeleton.tmpl", "skeletons:")].

Definition world (c : Config) (h : list route) (f : files) : state :=
  mkState c h f [] false false [].

(** Routes and builders used in the examples. *)
Definition home : route := user_route "/" "pages/HomeSkeleton.vue".
Definition aliased : route := user_route "/x" "@/core/Skeleton.vue".
Definition ghost : route := user_route "/g" "pages/Ghost.vue".
Definition nameless : route := mkRoute (Some "/n") None None None None.
Definition branded : route :=
  mkRoute (Some "/b") (Some "@/core/Skeleton.vue") (Some "brand") None None.

Definition at_root : Alias := [("@", "/app")].

Definition listed (rts : list loc) : option Skeleton :=
  Some (mkSkeleton true (Some rts)).

(** A project with its files in place and [rts] as skeleton routes. *)
Definition builder (h : list route) (rts : list loc) : state :=
  world (project (listed rts) false) h disk.

(** A project directory without any file. *)
Definition bare (h : list route) (rts : list loc) : state :=
  world (project (listed rts) false) h [].

End Demo.

(** The in-memory platform extended to the other generated files. *)

Module DemoRuntime.

Definition pick (c : Config) (h : list route) (items : list string)
    : string :=
  String.concat ","
    ((fun item =>
        if String.eqb item "ssr" then
          (if ssr (build c) then "ssr:true" else "ssr:false")
        else if String.eqb item "mode" then "mode:" +:+ mode (router c)
        else item) <$> items).

Definition render_isEmpty (source : string) (isEmpty : bool)
    : string + string :=
  inr (source +:+ (if isEmpty then "[]" else "[middlewares]")).

#[global] Instance runtime : Runtime := {|
  Json := string;
  Items := list string;
  RUMTIME_ITEMS := ["ssr"; "mode"];
  CONFIG_FILE := "config.json";
  JsonUtil_deepPick := pick;
  JsonUtil_stringify := fun j indent => j;
  lodash_template_isEmpty := render_isEmpty
|}.

Definition disk : Demo.files :=
  ("/lavas/core/builder/../templates/middleware.tmpl", "export default ")
  :: Demo.disk.

(** A project whose framework templates are missing. *)
Definition no_templates : Demo.files :=
  [("/app/core/index.html.tmpl", "<html></html>");
   ("/app/pages/HomeSkeleton.vue", "<template/>")].

Definition resolved_home : route :=
  set_componentPath "/app/pages/HomeSkeleton.vue" Demo.home.

Definition resolved_aliased : route :=
  set_componentPath "/app/core/Skeleton.vue" Demo.aliased.

End DemoRuntime.

Section Properties.
Context `{Platform}.

(** * Properties *)

(** ** The monad *)

Create HintDb monad discriminated.
#[local] Hint Unfold bind ret throw get modify async await deref update alloc
  fs_pathExists fs_readFile this_writeFile console_error : monad.

(** Runs the monadic plumbing of the goal. *)
Ltac mrun := repeat (progress (autounfold with monad; cbn)).

Lemma await_async {A} (m : M A) s : await (async m) s = m s.
Proof.
  unfold await, async, bind, ret, throw.
  destruct (m s) as [[a|e] s']; reflexivity.
Qed.

Lemma async_fulfilled {A} (m : M A) s a s' :
  m s = (Return a, s') → async m s = (Return (Fulfilled a), s').
Proof. unfold async. by intros ->. Qed.

Lemma async_fulfilled_inv {A} (m : M A) s a s' :
  async m s = (Return (Fulfilled a), s') → m s = (Return a, s').
Proof. unfold async. destruct (m s) as [[a0|e] s0]; congruence. Qed.

(** ** One iteration of the validation loop *)

Lemma validate_loop_cons l rest al s :
  validate_loop (l :: rest) al s =
  match heap s !! l with
  | None => (Throw (TypeError "Cannot read property of undefined"), s)
  | Some r =>
      if truthy (componentPath r) then
        let cp := interp (componentPath r) in
        let c1 := join [rootDir (globals (config s)); cp] in
        let c2 := resolveAliasPath al cp in
        if pathExists (fs s) c1 then validate_loop rest al (assigned l c1 r s)
        else if pathExists (fs s) c2 then
          validate_loop rest al (assigned l c2 r s)
        else (Return (VError (msg_not_existed cp)), s)
      else (Return (VError (msg_required r)), s)
  end.
Proof.
  cbn [validate_loop]. unfold bind at 1. unfold deref at 1.
  destruct (heap s !! l) as [r|] eqn:Hl; [|reflexivity].
  destruct (componentPath r) as [cp|] eqn:Hcp; cbn [truthy]; [|reflexivity].
  destruct (negb (String.eqb cp "")) eqn:Hne; cbn [negb]; [|reflexivity].
  cbn [interp try_resolvedPaths]. unfold assigned. mrun.
  destruct (pathExists (fs s) _); mrun; [by rewrite Hl|].
  destruct (pathExists (fs s) _); mrun; rewrite Hl; [done|].
  by rewrite Hcp.
Qed.

(** Case analysis along the branches of one iteration. *)
Ltac validate_cases Hrun :=
  rewrite validate_loop_cons in Hrun;
  let r := fresh "r" in
  let Hl := fresh "Hl" in
  let Ht := fresh "Ht" in
  let E1 := fresh "E1" in
  let E2 := fresh "E2" in
  destruct (heap _ !! _) as [r|] eqn:Hl in Hrun;
    [destruct (truthy (componentPath r)) eqn:Ht in Hrun;
      [cbv zeta in Hrun;
       destruct (pathExists _ (join _)) eqn:E1 in Hrun;
        [|destruct (pathExists _ (resolveAliasPath _ _)) eqn:E2 in Hrun]|]|].

Lemma truthy_interp v : truthy v = true → v = Some (interp v).
Proof. by destruct v. Qed.

Lemma validate_loop_app pre post al s :
  validate_loop (pre ++ post) al s =
  match validate_loop pre al s with
  | (Return VFalse, s1) => validate_loop post al s1
  | other => other
  end.
Proof.
  revert s. induction pre as [|l pre IH]; intros s; [reflexivity|].
  rewrite <- app_comm_cons, !validate_loop_cons.
  destruct (heap s !! l) as [r|]; [|reflexivity].
  destruct (truthy (componentPath r)); [|reflexivity].
  cbv zeta. repeat (destruct (pathExists _ _); [apply IH|]). reflexivity.
Qed.

(** Every message produced by the loop is a non-empty string, so the
    caller's test [error && error.msg] succeeds on it. *)
Lemma validate_loop_has_msg rts al s m s' :
  validate_loop rts al s = (Return (VError m), s') → has_msg (VError m) = true.
Proof.
  revert s. induction rts as [|l rts IH]; intros s Hrun; [discriminate|].
  validate_cases Hrun; try discriminate; try (by eapply IH);
    injection Hrun as <- <-; reflexivity.
Qed.

(** The footprint of the loop: only the store changes, no object is created
    or lost, and an object changes at most by receiving in [componentPath] a
    path that exists, which happens only to members of the list. *)
Lemma validate_loop_effect rts al s c s' :
  validate_loop rts al s = (c, s') →
  s' = set_heap (heap s') s ∧
  length (heap s') = length (heap s) ∧
  ∀ l r, heap s !! l = Some r →
    ∃ r', heap s' !! l = Some r' ∧
      (r' = r ∨
       l ∈ rts ∧ ∃ p, pathExists (fs s) p = true ∧ r' = set_componentPath p r).
Proof.
  revert s. induction rts as [|l0 rts IH]; intros s Hrun.
  { injection Hrun as <- <-. split_and!; [by destruct s|done|eauto]. }
  assert (Hstuck : ∀ c0, (c0, s) = (c, s') →
    s' = set_heap (heap s') s ∧ length (heap s') = length (heap s) ∧
    ∀ l r, heap s !! l = Some r → ∃ r', heap s' !! l = Some r' ∧
      (r' = r ∨ l ∈ l0 :: rts ∧
         ∃ p, pathExists (fs s) p = true ∧ r' = set_componentPath p r)).
  { intros c0 [= _ <-]. split_and!; [by destruct s|done|eauto]. }
  assert (Hgo : ∀ p r0, heap s !! l0 = Some r0 → pathExists (fs s) p = true →
    validate_loop rts al (assigned l0 p r0 s) = (c, s') →
    s' = set_heap (heap s') s ∧ length (heap s') = length (heap s) ∧
    ∀ l r, heap s !! l = Some r → ∃ r', heap s' !! l = Some r' ∧
      (r' = r ∨ l ∈ l0 :: rts ∧
         ∃ p, pathExists (fs s) p = true ∧ r' = set_componentPath p r)).
  { intros p r0 Hl0 Hp Hrest.
    destruct (IH _ Hrest) as (Hs' & Hlen & Hobj). cbn in Hlen, Hobj.
    rewrite length_insert in Hlen.
    split; [by rewrite Hs'|]. split; [done|].
    intros l r Hl. destruct (decide (l = l0)) as [->|Hne].
    - assert (r = r0) as -> by congruence.
      destruct (Hobj l0 (set_componentPath p r0)) as (r' & Hr' & Hcase).
      { apply list_lookup_insert_eq. by eapply lookup_lt_Some. }
      exists r'. split; [done|]. right. split; [left|].
      destruct Hcase as [->|(_ & q & Hq & ->)]; eauto.
    - destruct (Hobj l r) as (r' & Hr' & Hcase).
      { by rewrite list_lookup_insert_ne. }
      exists r'. split; [done|].
      destruct Hcase as [->|(Hin & q & Hq & ->)]; [by left|].
      right. split; [by right|]. eauto. }
  validate_cases Hrun; eauto.
Qed.

Lemma assigned_lookup l p r s :
  heap s !! l = Some r →
  heap (assigned l p r s) !! l = Some (set_componentPath p r).
Proof. intros Hl. apply list_lookup_insert_eq. by eapply lookup_lt_Some. Qed.

(** After a successful run every listed route holds a path that exists. *)
Lemma validate_loop_resolved rts al s s' :
  validate_loop rts al s = (Return VFalse, s') →
  ∀ l, l ∈ rts →
    ∃ r0 p, heap s !! l = Some r0 ∧
      heap s' !! l = Some (set_componentPath p r0) ∧
      pathExists (fs s) p = true.
Proof.
  revert s. induction rts as [|l0 rts IH]; intros s Hrun l Hin.
  { by apply elem_of_nil in Hin. }
  assert (Hgo : ∀ p r0, heap s !! l0 = Some r0 → pathExists (fs s) p = true →
    validate_loop rts al (assigned l0 p r0 s) = (Return VFalse, s') →
    ∃ r1 q, heap s !! l = Some r1 ∧
      heap s' !! l = Some (set_componentPath q r1) ∧
      pathExists (fs s) q = true).
  { intros p r0 Hl0 Hp Hrest.
    destruct (decide (l = l0)) as [->|Hne].
    - destruct (validate_loop_effect _ _ _ _ _ Hrest) as (_ & _ & Hobj).
      destruct (Hobj l0 _ (assigned_lookup _ p _ _ Hl0)) as (r' & Hr' & Hcase).
      destruct Hcase as [->|(_ & q & Hq & ->)]; eauto 6.
    - apply elem_of_cons in Hin as [?|Hin]; [done|].
      destruct (IH _ Hrest l Hin) as (r1 & q & Hl1 & Hl' & Hq).
      cbn in Hl1, Hq. rewrite list_lookup_insert_ne in Hl1 by done. eauto 6. }
  validate_cases Hrun; try discriminate; eauto.
Qed.


(** A run that yields an error descriptor went through a prefix of the list
    without failure and stopped at the next route. *)
Lemma validate_loop_error_index rts al s m s' :
  validate_loop rts al s = (Return (VError m), s') →
  ∃ i l, rts !! i = Some l ∧
    validate_loop (take i rts) al s = (Return VFalse, s') ∧
    validate_loop [l] al s' = (Return (VError m), s').
Proof.
  revert s. induction rts as [|l0 rts IH]; intros s Hrun; [discriminate|].
  pose proof Hrun as Hrun0.
  validate_cases Hrun; try discriminate.
  - destruct (IH _ Hrun) as (i & l & Hi & Hpre & Hl').
    exists (S i), l. split_and!; [done| |done].
    cbn [take]. rewrite validate_loop_cons, Hl, Ht. cbv zeta. by rewrite E1.
  - destruct (IH _ Hrun) as (i & l & Hi & Hpre & Hl').
    exists (S i), l. split_and!; [done| |done].
    cbn [take]. rewrite validate_loop_cons, Hl, Ht. cbv zeta.
    by rewrite E1, E2.
  - injection Hrun as <- <-. exists 0, l0. split_and!; [done..|].
    rewrite validate_loop_cons, Hl, Ht. cbv zeta. by rewrite E1, E2.
  - injection Hrun as <- <-. exists 0, l0. split_and!; [done..|].
    by rewrite validate_loop_cons, Hl, Ht.
Qed.

(** A listed route without a component path stops the loop with an error
    descriptor, whatever comes before it. *)
Lemma validate_loop_missing rts al s :
  Forall (λ l, is_Some (heap s !! l)) rts →
  (∃ l r, l ∈ rts ∧ heap s !! l = Some r ∧ truthy (componentPath r) = false) →
  ∃ m s', validate_loop rts al s = (Return (VError m), s').
Proof.
  revert s. induction rts as [|l0 rts IH]; intros s Hobj (l & r & Hin & Hl & Hf).
  { by apply elem_of_nil in Hin. }
  apply Forall_cons in Hobj as [[r0 Hl0] Hobj].
  rewrite validate_loop_cons, Hl0.
  destruct (truthy (componentPath r0)) eqn:Ht; [|eauto].
  assert (l ≠ l0) as Hne by (intros ->; congruence).
  apply elem_of_cons in Hin as [?|Hin]; [done|].
  assert (Hgo : ∀ p, ∃ m s',
    validate_loop rts al (assigned l0 p r0 s) = (Return (VError m), s')).
  { intros p. apply IH.
    - eapply Forall_impl; [exact Hobj|]. intros l1 Hl1. cbn.
      by apply list_lookup_insert_is_Some.
    - exists l, r. split_and!; [done| |done].
      cbn. by rewrite list_lookup_insert_ne. }
  cbv zeta. repeat (destruct (pathExists _ _); [apply Hgo|]). eauto.
Qed.

(** ** The claims about [validateSkeletonRoutes] *)

(** C1. A route with a non-empty [componentPath], reached by the loop after
    the routes before it have been resolved, is tried against exactly two
    candidates in order: the join of [config.globals.rootDir] with the
    component path, then the alias-resolved path.  The first candidate that
    exists is assigned to [route.componentPath] and the loop goes on with the
    remaining routes; when neither exists the method returns the error
    descriptor naming the component path. *)
Theorem validateSkeletonRoutes_two_candidates pre l post al s s1 r cp :
  validateSkeletonRoutes pre al s = (Return (Fulfilled VFalse), s1) →
  heap s1 !! l = Some r →
  componentPath r = Some cp →
  cp ≠ "" →
  let c1 := join [rootDir (globals (config s1)); cp] in
  let c2 := resolveAliasPath al cp in
  validateSkeletonRoutes (pre ++ l :: post) al s =
    (if pathExists (fs s1) c1 then
       validateSkeletonRoutes post al (assigned l c1 r s1)
     else if pathExists (fs s1) c2 then
       validateSkeletonRoutes post al (assigned l c2 r s1)
     else (Return (Fulfilled (VError (msg_not_existed cp))), s1)) ∧
  ∀ c, componentPath <$> heap (assigned l c r s1) !! l = Some (Some c).
Proof.
  intros Hpre Hl Hcp Hne c1 c2. split.
  - apply async_fulfilled_inv in Hpre.
    unfold validateSkeletonRoutes, async.
    rewrite validate_loop_app, Hpre, validate_loop_cons, Hl, Hcp.
    cbn [truthy interp]. apply String.eqb_neq in Hne. rewrite Hne.
    cbn [negb]. cbv zeta. fold c1 c2.
    destruct (pathExists (fs s1) c1); [done|].
    by destruct (pathExists (fs s1) c2).
  - intros c. by rewrite assigned_lookup.
Qed.

(** C2. A list of route objects one of which has no (or an empty)
    [componentPath] never validates: the method returns an error descriptor,
    whose [msg] passes the caller's test, instead of [false].  When the loop
    reaches such a route without an earlier failure, the message names the
    path of that route and says that componentPath is required. *)
Theorem validateSkeletonRoutes_missing_componentPath rts al s :
  Forall (λ l, is_Some (heap s !! l)) rts →
  (∃ l r, l ∈ rts ∧ heap s !! l = Some r ∧ truthy (componentPath r) = false) →
  (∃ m s', validateSkeletonRoutes rts al s = (Return (Fulfilled (VError m)), s')
     ∧ has_msg (VError m) = true) ∧
  (∀ pre l post s1 r,
     rts = (pre ++ l :: post)%list →
     validateSkeletonRoutes pre al s = (Return (Fulfilled VFalse), s1) →
     heap s1 !! l = Some r →
     truthy (componentPath r) = false →
     validateSkeletonRoutes rts al s =
       (Return (Fulfilled (VError
          ("[Lavas] componentPath for " +:+ interp (path r) +:+
           " is required."))), s1)).
Proof.
  intros Hobj Hmiss. split.
  - destruct (validate_loop_missing rts al s Hobj Hmiss) as (m & s' & Hrun).
    exists m, s'. split; [by apply async_fulfilled|].
    by eapply validate_loop_has_msg.
  - intros pre l post s1 r -> Hpre Hl Hf.
    apply async_fulfilled_inv in Hpre. apply async_fulfilled.
    by rewrite validate_loop_app, Hpre, validate_loop_cons, Hl, Hf.
Qed.

(** C3. When [validateSkeletonRoutes] returns [false], the file system is
    the one it started with and every route of the list holds in
    [componentPath] a path for which [pathExists] is true. *)
Theorem validateSkeletonRoutes_success_paths_exist rts al s s' :
  validateSkeletonRoutes rts al s = (Return (Fulfilled VFalse), s') →
  fs s' = fs s ∧
  ∀ l, l ∈ rts →
    ∃ r p, heap s' !! l = Some r ∧ componentPath r = Some p ∧
      pathExists (fs s') p = true.
Proof.
  intros Hrun. apply async_fulfilled_inv in Hrun.
  destruct (validate_loop_effect _ _ _ _ _ Hrun) as (Hs' & _ & _).
  assert (fs s' = fs s) as Hfs by (by rewrite Hs').
  split; [done|]. intros l Hin.
  destruct (validate_loop_resolved _ _ _ _ Hrun l Hin) as (r0 & p & _ & Hl & Hp).
  exists (set_componentPath p r0), p. by rewrite Hfs.
Qed.


(** ** Generated files *)

Lemma writeFileToLavasDir_run p content s :
  writeFileToLavasDir p content s =
  let out := join [rootDir (globals (config s)); "./.lavas"; p] in
  match writeFile out content (fs s) with
  | Some f => (Return (Fulfilled out), set_fs f s)
  | None => (Return (Rejected (SystemError "write" out)), s)
  end.
Proof.
  unfold writeFileToLavasDir, lavasPath. mrun.
  by destruct (writeFile _ _ _).
Qed.

(** ** addHtmlPlugin *)

Lemma addHtmlPlugin_run spa b w s :
  addHtmlPlugin spa b w s =
  if pathExists (fs s) (customTemplatePath s) then
    match readFile (fs s) (customTemplatePath s) with
    | None =>
        (Return (Rejected (SystemError "open" (customTemplatePath s))), s)
    | Some source =>
        match templateUtil_client source (default "/" b) with
        | inl msg => (Return (Rejected (TemplateError msg)), s)
        | inr text =>
            let out :=
              join [rootDir (globals (config s)); "./.lavas"; TEMPLATE_HTML]
            in
            match writeFile out text (fs s) with
            | None => (Return (Rejected (SystemError "write" out)), s)
            | Some f =>
                (Return (Fulfilled
                   (set_plugins
                      (HtmlWebpackPlugin
                         (html_options (DEFAULT_ENTRY_NAME +:+ ".html") out)
                       :: plugins spa) spa)),
                 watching w (default "/" b) (set_fs f s))
            end
        end
    end
  else (Return (Rejected (Error template_required)), s).
Proof.
  unfold addHtmlPlugin, writeFileToLavasDir, lavasPath, addWatcher,
    customTemplatePath, watching.
  mrun. destruct (pathExists (fs s) _); mrun; [|reflexivity].
  destruct (readFile (fs s) _) as [source|]; mrun; [|reflexivity].
  destruct (templateUtil_client source _) as [msg|text]; mrun;
    [reflexivity|].
  destruct (writeFile _ _ _) as [f|]; mrun; [|reflexivity].
  by destruct w.
Qed.

(** ** addSkeletonPlugin *)

Lemma skeleton_routes_run s :
  skeleton_routes s =
  match skeleton (config s) with
  | None =>
      (Throw (TypeError "Cannot read property 'routes' of undefined"), s)
  | Some sk =>
      match routes sk with
      | Some (l :: rts) => (Return (l :: rts), s)
      | _ =>
          (Return [length (heap s)],
           set_config (set_routes [length (heap s)] (config s))
             (set_heap (heap s ++ [default_route]) s))
      end
  end.
Proof.
  unfold skeleton_routes. mrun.
  destruct (skeleton (config s)) as [sk|]; [|reflexivity].
  by destruct (routes sk) as [[|l rts]|].
Qed.

Lemma addSkeletonPlugin_run spa s rts s0 v s1 :
  skeleton_routes s = (Return rts, s0) →
  validate_loop rts (alias (resolve spa)) s0 = (Return v, s1) →
  addSkeletonPlugin spa s =
  if has_msg v then
    (Return (Fulfilled spa),
     match v with
     | VError m => set_console (console s1 ++ [m]) s1
     | VFalse => s1
     end)
  else async (skeleton_bundle rts spa (router (config s))) s1.
Proof.
  intros Hrts Hv.
  unfold addSkeletonPlugin, validateSkeletonRoutes.
  unfold async at 1, bind at 1, get at 1, bind at 1. rewrite Hrts.
  unfold bind at 1. rewrite await_async, Hv.
  destruct (has_msg v) eqn:Hm; [|reflexivity].
  destruct v as [|m]; [discriminate|]. reflexivity.
Qed.

Lemma addSkeletonPlugin_stuck spa s :
  (∀ e s0, skeleton_routes s = (Throw e, s0) →
     addSkeletonPlugin spa s = (Return (Rejected e), s0)) ∧
  (∀ rts s0 e s1, skeleton_routes s = (Return rts, s0) →
     validate_loop rts (alias (resolve spa)) s0 = (Throw e, s1) →
     addSkeletonPlugin spa s = (Return (Rejected e), s1)).
Proof.
  split.
  - intros e s0 Hrts. unfold addSkeletonPlugin.
    unfold async at 1, bind at 1, get at 1, bind at 1. by rewrite Hrts.
  - intros rts s0 e s1 Hrts Hv.
    unfold addSkeletonPlugin, validateSkeletonRoutes.
    unfold async at 1, bind at 1, get at 1, bind at 1. rewrite Hrts.
    unfold bind at 1. by rewrite await_async, Hv.
Qed.

Lemma or_else_idemp a b : or_else (or_else a b) b = or_else a b.
Proof.
  unfold or_else. destruct (truthy a) eqn:Ha; [by rewrite Ha|].
  by destruct (truthy b).
Qed.

Lemma annotated_idemp r : annotated (annotated r) = annotated r.
Proof.
  unfold annotated, annotate. cbn. by rewrite or_else_idemp.
Qed.

Lemma annotate_route_run l s :
  annotate_route l s =
  match heap s !! l with
  | None => (Throw (TypeError "Cannot read property of undefined"), s)
  | Some r =>
      match componentPath r with
      | None => (Throw (TypeError "Path must be a string"), s)
      | Some cp => (Return (), set_heap (<[l := annotate cp r]> (heap s)) s)
      end
  end.
Proof.
  unfold annotate_route. mrun.
  destruct (heap s !! l) as [r|] eqn:Hl; [|reflexivity].
  destruct (componentPath r); mrun; [|reflexivity]. by rewrite Hl.
Qed.

Lemma forEach_annotate_frame rts s c s' :
  forEach annotate_route rts s = (c, s') →
  s' = set_heap (heap s') s ∧ length (heap s') = length (heap s).
Proof.
  revert s. induction rts as [|l rts IH]; intros s Hrun.
  { injection Hrun as <- <-. by destruct s. }
  cbn [forEach] in Hrun. unfold bind in Hrun.
  rewrite annotate_route_run in Hrun.
  destruct (heap s !! l) as [r|];
    [destruct (componentPath r)|]; try (injection Hrun as <- <-; by destruct s).
  apply IH in Hrun as [Hs' Hlen]. cbn in Hlen. rewrite length_insert in Hlen.
  split; [by rewrite Hs'|done].
Qed.

(** On routes that all have a component path the [forEach] runs to its end
    and rewrites exactly the listed objects. *)
Lemma forEach_annotate_run rts s :
  (∀ l, l ∈ rts → ∃ r cp, heap s !! l = Some r ∧ componentPath r = Some cp) →
  ∃ s', forEach annotate_route rts s = (Return (), s') ∧
    (∀ l, l ∈ rts → heap s' !! l = annotated <$> heap s !! l) ∧
    (∀ l, l ∉ rts → heap s' !! l = heap s !! l).
Proof.
  revert s. induction rts as [|l0 rts IH]; intros s Hpre.
  { exists s. split_and!; [done| |done].
    intros l Hin. by apply elem_of_nil in Hin. }
  destruct (Hpre l0) as (r0 & cp0 & Hl0 & Hcp0); [by left|].
  cbn [forEach]. unfold bind. rewrite annotate_route_run, Hl0, Hcp0.
  set (s1 := set_heap _ s).
  assert (Hl01 : heap s1 !! l0 = Some (annotated r0)).
  { unfold annotated. rewrite Hcp0. cbn.
    apply list_lookup_insert_eq. by eapply lookup_lt_Some. }
  assert (Hne1 : ∀ l, l ≠ l0 → heap s1 !! l = heap s !! l).
  { intros l Hne. cbn. by rewrite list_lookup_insert_ne. }
  destruct (IH s1) as (s' & Hrun & Hin' & Hout').
  { intros l Hin. destruct (decide (l = l0)) as [->|Hne].
    - exists (annotated r0), cp0. by split.
    - rewrite Hne1 by done. apply Hpre. by right. }
  exists s'. split_and!; [done| |].
  - intros l Hin. destruct (decide (l = l0)) as [->|Hne].
    + rewrite Hl0. cbn [fmap option_fmap option_map].
      destruct (decide (l0 ∈ rts)) as [Hin0|Hout0].
      * rewrite Hin', Hl01 by done. cbn. by rewrite annotated_idemp.
      * by rewrite Hout', Hl01.
    + apply elem_of_cons in Hin as [?|Hin]; [done|].
      by rewrite Hin', Hne1.
  - intros l Hout. apply not_elem_of_cons in Hout as [Hne Hout].
    by rewrite Hout', Hne1.
Qed.

Lemma mapM_deref_state rts s c s' : mapM deref rts s = (c, s') → s' = s.
Proof.
  revert c. induction rts as [|l rts IH]; intros c Hrun.
  { by injection Hrun as <- <-. }
  cbn [mapM] in Hrun. unfold bind at 1, deref at 1 in Hrun.
  destruct (heap s !! l) as [r|]; [|by injection Hrun as <- <-].
  unfold bind at 1 in Hrun.
  destruct (mapM deref rts s) as [[rs|e] s1] eqn:Hrest;
    injection Hrun as <- <-; by eapply IH.
Qed.

Lemma writeSkeletonEntry_frame rts s c s' :
  writeSkeletonEntry rts s = (c, s') →
  (∃ f, s' = set_fs f s) ∧ ∃ p, c = Return p.
Proof.
  assert (Hs : s = set_fs (fs s) s) by (by destruct s).
  unfold writeSkeletonEntry. unfold async at 1, bind at 1, await at 1.
  unfold bind at 1, fs_readFile at 1, async at 1.
  destruct (readFile (fs s) _) as [source|]; cbn [ret throw];
    [|intros [= <- <-]; eauto].
  unfold bind at 1.
  destruct (mapM deref rts s) as [[objects|e] s1] eqn:Hobjs;
    apply mapM_deref_state in Hobjs as ->; [|intros [= <- <-]; eauto].
  destruct (lodash_template source objects) as [msg|text];
    [intros [= <- <-]; eauto|].
  unfold await, bind. rewrite writeFileToLavasDir_run. cbv zeta.
  destruct (writeFile _ _ _) as [f|]; cbn; intros [= <- <-]; eauto.
Qed.

(** What the bundle branch leaves alone, and the shape of its result. *)
Lemma skeleton_bundle_frame rts spa ro s c s' :
  skeleton_bundle rts spa ro s = (c, s') →
  config s' = config s ∧ console s' = console s ∧
  length (heap s') = length (heap s) ∧
  ∀ spa', c = Return spa' →
    ∃ k d, spa' =
      set_plugins (plugins spa ++ [SkeletonWebpackPlugin k true (mode ro) rts d])
        spa.
Proof.
  unfold skeleton_bundle. unfold bind at 1.
  destruct (forEach annotate_route rts s) as [[[]|e] s1] eqn:Hfe;
    apply forEach_annotate_frame in Hfe as [Hs1 Hlen].
  2:{ intros [= <- <-]. rewrite Hs1. by split_and!. }
  unfold bind at 1, modify at 1. unfold bind at 1, await at 1, bind at 1.
  destruct (writeSkeletonEntry rts _) as [c2 s2] eqn:Hw.
  apply writeSkeletonEntry_frame in Hw as [[f ->] [p ->]].
  destruct p as [entryPath|e]; cbn; intros [= <- <-]; cbn; rewrite Hs1;
    (split_and!; [done..|]).
  - intros spa' [= <-]. eauto.
  - intros spa' [=].
Qed.

Lemma skeleton_bundle_heap rts spa ro s :
  (∀ l, l ∈ rts → ∃ r cp, heap s !! l = Some r ∧ componentPath r = Some cp) →
  ∃ c s', skeleton_bundle rts spa ro s = (c, s') ∧
    skeletonEnabled s' = true ∧
    (∀ l, l ∈ rts → heap s' !! l = annotated <$> heap s !! l) ∧
    (∀ l, l ∉ rts → heap s' !! l = heap s !! l).
Proof.
  intros Hpre. destruct (forEach_annotate_run rts s Hpre) as (s1 & Hfe & Hin & Hout).
  unfold skeleton_bundle. unfold bind at 1. rewrite Hfe.
  unfold bind at 1, modify at 1. unfold bind at 1, await at 1, bind at 1.
  destruct (writeSkeletonEntry rts _) as [c2 s2] eqn:Hw.
  apply writeSkeletonEntry_frame in Hw as [[f ->] [p ->]].
  destruct p as [entryPath|e]; cbn; eauto 10.
Qed.

Lemma mapM_deref_total rts s :
  (∀ l, l ∈ rts → is_Some (heap s !! l)) →
  ∃ objects, mapM deref rts s = (Return objects, s).
Proof.
  induction rts as [|l rts IH]; intros Hobj; [by exists []|].
  destruct (Hobj l) as [r Hl]; [by left|].
  destruct IH as [objects Hrest]; [intros l' Hin; apply Hobj; by right|].
  exists (r :: objects). cbn [mapM]. unfold bind at 1, deref at 1.
  rewrite Hl. unfold bind at 1. by rewrite Hrest.
Qed.

(** The bundle branch runs to its end when the entry template can be read
    and rendered and the entry file can be written. *)
Lemma skeleton_bundle_run rts spa ro s source :
  (∀ l, l ∈ rts → ∃ r cp, heap s !! l = Some r ∧ componentPath r = Some cp) →
  readFile (fs s) (templatesPath "entry-skeleton.tmpl") = Some source →
  (∀ objects, ∃ text, lodash_template source objects = inr text) →
  (∀ p text f, is_Some (writeFile p text f)) →
  ∃ k s',
    skeleton_bundle rts spa ro s =
      (Return
         (set_plugins
            (plugins spa ++
               [SkeletonWebpackPlugin k true (mode ro) rts (negb (isDev s))])
            spa), s') ∧
    entry k =
      [(DEFAULT_ENTRY_NAME,
        [join [rootDir (globals (config s)); "./.lavas"; "skeleton.js"]])] ∧
    plugins k = removelast (plugins (webpackConfig_server (config s) true)).
Proof.
  intros Hpre Hread Hrender Hwrite.
  destruct (forEach_annotate_run rts s Hpre) as (s1 & Hfe & Hin & _).
  destruct (forEach_annotate_frame _ _ _ _ Hfe) as [Hs1 _].
  unfold skeleton_bundle. unfold bind at 1. rewrite Hfe.
  unfold bind at 1, modify at 1. unfold bind at 1, await at 1, bind at 1.
  unfold writeSkeletonEntry. unfold async at 1, bind at 1, await at 1.
  unfold bind at 1, fs_readFile at 1, async at 1.
  rewrite Hs1. cbn [fs set_heap set_skeletonEnabled]. rewrite Hread.
  cbn [ret]. unfold bind at 1.
  match goal with |- context [mapM deref rts ?st] =>
    destruct (mapM_deref_total rts st) as [objects ->] end.
  { intros l Hl. cbn. rewrite (Hin l Hl).
    destruct (Hpre l Hl) as (r & cp & -> & _). by eexists. }
  destruct (Hrender objects) as [text ->].
  unfold await, bind. rewrite writeFileToLavasDir_run. cbv zeta.
  match goal with |- context [writeFile ?p ?c ?f] =>
    destruct (Hwrite p c f) as [f' ->] end.
  cbn. eexists _, _. split; [reflexivity|]. by destruct (webpackConfig_server _ _).
Qed.

Lemma addSkeletonPlugin_frame spa s out s' rts s0 :
  skeleton_routes s = (Return rts, s0) →
  addSkeletonPlugin spa s = (out, s') →
  config s' = config s0 ∧ length (heap s') = length (heap s0) ∧
  ∀ spa', out = Return (Fulfilled spa') →
    spa' = spa ∨
    ∃ k m d, spa' =
      set_plugins (plugins spa ++ [SkeletonWebpackPlugin k true m rts d]) spa.
Proof.
  intros Hrts.
  destruct (validate_loop rts (alias (resolve spa)) s0) as [[v|e] s1] eqn:Hv;
    destruct (validate_loop_effect _ _ _ _ _ Hv) as (Hs1 & Hlen & _).
  - rewrite (addSkeletonPlugin_run _ _ _ _ _ _ Hrts Hv).
    destruct (has_msg v).
    + intros [= <- <-]. split_and!.
      * destruct v; cbn; by rewrite Hs1.
      * by destruct v.
      * intros spa' [= <-]. by left.
    + unfold async.
      destruct (skeleton_bundle _ _ _ s1) as [c2 s2] eqn:Hb.
      apply skeleton_bundle_frame in Hb as (Hc & _ & Hlen2 & Hshape).
      assert (config s2 = config s0) by (by rewrite Hc, Hs1).
      destruct c2 as [spa2|e]; intros [= <- <-]; (split_and!; [done|lia|]).
      * intros spa' [= <-]. right.
        destruct (Hshape spa2 eq_refl) as (k & d & ->). eauto.
      * intros spa' [=].
  - rewrite (proj2 (addSkeletonPlugin_stuck spa s) _ _ _ _ Hrts Hv).
    intros [= <- <-]. split_and!; [by rewrite Hs1|done|]. intros spa' [=].
Qed.

(** ** The claims about the plugins and the SPA config *)

(** C4. With [build.ssr] false and no HTML template under
    [rootDir/core/TEMPLATE_HTML], [createSPAConfig] fails with the
    missing-template error of [addHtmlPlugin], whatever the skeleton routes
    are: the builder is left exactly as it was, so nothing was printed and
    no route was touched by a validation of the skeleton routes. *)
Theorem createSPAConfig_missing_template_first w s :
  ssr (build (config s)) = false →
  pathExists (fs s)
    (join [rootDir (globals (config s)); "core/" +:+ TEMPLATE_HTML]) = false →
  createSPAConfig w s =
    (Return (Rejected (Error
       (TEMPLATE_HTML +:+ " required for entry: " +:+ DEFAULT_ENTRY_NAME))),
     s) ∧
  console (createSPAConfig w s).2 = console s ∧
  heap (createSPAConfig w s).2 = heap s.
Proof.
  intros Hssr Htpl.
  assert (createSPAConfig w s =
    (Return (Rejected (Error template_required)), s)) as Hrun.
  { unfold createSPAConfig.
    unfold async at 1, bind at 1, get at 1. rewrite Hssr. cbn [negb].
    unfold bind at 1, await at 1, bind at 1.
    rewrite addHtmlPlugin_run. unfold customTemplatePath. by rewrite Htpl. }
  by rewrite Hrun.
Qed.

(** C5, as the code has it.  [addHtmlPlugin] is an [async] method: it never
    throws to its caller, it returns a promise.  The promise is rejected
    with the Error of message
    [<TEMPLATE_HTML> required for entry: <DEFAULT_ENTRY_NAME>] if and only
    if the template [rootDir/core/TEMPLATE_HTML] does not exist; the builder
    is then left as it was, nothing being retried or repaired.  (With the
    template in place the promise can still be rejected, by the errors of
    reading, rendering or writing it, which are other errors.) *)
Theorem addHtmlPlugin_rejects_iff_template_missing spa b w s :
  (∀ e s', addHtmlPlugin spa b w s ≠ (Throw e, s')) ∧
  ((∃ s', addHtmlPlugin spa b w s =
            (Return (Rejected (Error
               (TEMPLATE_HTML +:+ " required for entry: " +:+
                DEFAULT_ENTRY_NAME))), s')) ↔
   pathExists (fs s)
     (join [rootDir (globals (config s)); "core/" +:+ TEMPLATE_HTML]) = false) ∧
  (∀ s', addHtmlPlugin spa b w s =
           (Return (Rejected (Error
              (TEMPLATE_HTML +:+ " required for entry: " +:+
               DEFAULT_ENTRY_NAME))), s') →
     s' = s).
Proof.
  rewrite addHtmlPlugin_run. unfold customTemplatePath.
  destruct (pathExists (fs s) _).
  - destruct (readFile (fs s) _) as [source|];
      [destruct (templateUtil_client source _) as [msg|text];
        [|cbv zeta; destruct (writeFile _ _ _) as [f|]]|];
      (split_and!; [congruence|split; [intros (? & [=])|done]|congruence]).
  - split_and!; [congruence|split; eauto|by intros ? [= <-]].
Qed.

(** C6. When the validation of the skeleton routes returns an error
    descriptor, [addSkeletonPlugin] prints its message and does nothing
    else: the webpack config comes back as it was given, the file system and
    [skeletonEnabled] are unchanged, and no route has received a
    [componentName], [componentNameInDash] or [skeletonId]. *)
Theorem addSkeletonPlugin_validation_error spa s rts s0 m s1 :
  skeleton_routes s = (Return rts, s0) →
  validateSkeletonRoutes rts (alias (resolve spa)) s0
    = (Return (Fulfilled (VError m)), s1) →
  ∃ s', addSkeletonPlugin spa s = (Return (Fulfilled spa), s') ∧
    console s' = (console s ++ [m])%list ∧
    fs s' = fs s ∧
    skeletonEnabled s' = skeletonEnabled s ∧
    ∀ l r0, heap s0 !! l = Some r0 →
      ∃ r', heap s' !! l = Some r' ∧
        componentName r' = componentName r0 ∧
        componentNameInDash r' = componentNameInDash r0 ∧
        skeletonId r' = skeletonId r0.
Proof.
  intros Hrts Hv. apply async_fulfilled_inv in Hv.
  rewrite (addSkeletonPlugin_run _ _ _ _ _ _ Hrts Hv).
  rewrite (validate_loop_has_msg _ _ _ _ _ Hv).
  destruct (validate_loop_effect _ _ _ _ _ Hv) as (Hs1 & _ & Hobj).
  assert (console s0 = console s ∧ fs s0 = fs s ∧
          skeletonEnabled s0 = skeletonEnabled s) as (Hc & Hf & He).
  { rewrite skeleton_routes_run in Hrts.
    destruct (skeleton (config s)) as [sk|]; [|discriminate].
    destruct (routes sk) as [[|? ?]|]; by injection Hrts as <- <-. }
  eexists. split; [reflexivity|]. cbn. rewrite Hs1. cbn.
  split_and!; [by rewrite Hc|done..|].
  intros l r0 Hl. destruct (Hobj l r0 Hl) as (r' & Hr' & Hcase).
  exists r'. split; [done|].
  by destruct Hcase as [->|(_ & p & _ & ->)].
Qed.

(** C7. The skeleton bundle is optional.  With [build.ssr] true
    [createSPAConfig] returns the client config with an empty [entry] and
    its own plugins, and the builder is untouched.  With [build.ssr] false a
    config that is returned has the client entry and the HTML plugin in
    front of the client plugins, followed by at most one skeleton plugin at
    the end, which is there only when the skeleton config exists and
    [skeleton.enable] is true.  Such configs are returned: once the template
    has been read, rendered and written, the HTML plugin alone is added when
    there is no enabled skeleton config, and the skeleton plugin is added
    after it when the skeleton routes validate and the entry file can be
    generated. *)
Theorem createSPAConfig_plugins w s :
  let client := webpackConfig_client (config s) in
  let tpl := join [rootDir (globals (config s)); "core/" +:+ TEMPLATE_HTML] in
  let out := join [rootDir (globals (config s)); "./.lavas"; TEMPLATE_HTML] in
  let baseUrl := default "/" (base (router (config s))) in
  let html :=
    HtmlWebpackPlugin (html_options (DEFAULT_ENTRY_NAME +:+ ".html") out) in
  (ssr (build (config s)) = true →
   ∃ spa, createSPAConfig w s = (Return (Fulfilled spa), s) ∧
     entry spa = [] ∧ plugins spa = plugins client) ∧
  (ssr (build (config s)) = false →
   ∀ spa s', createSPAConfig w s = (Return (Fulfilled spa), s') →
     entry spa = [(DEFAULT_ENTRY_NAME, ["./core/entry-client.js"])] ∧
     ∃ o, plugins spa = HtmlWebpackPlugin o :: plugins client ∨
       ∃ k m rts d sk,
         plugins spa =
           (HtmlWebpackPlugin o :: plugins client ++
              [SkeletonWebpackPlugin k true m rts d])%list ∧
         skeleton (config s) = Some sk ∧ enable sk = true) ∧
  (ssr (build (config s)) = false →
   ∀ source text f,
     pathExists (fs s) tpl = true →
     readFile (fs s) tpl = Some source →
     templateUtil_client source baseUrl = inr text →
     writeFile out text (fs s) = Some f →
     let s1 := watching w baseUrl (set_fs f s) in
     (skeleton (config s) = None ∨
      (∃ sk, skeleton (config s) = Some sk ∧ enable sk = false) →
      ∃ spa, createSPAConfig w s = (Return (Fulfilled spa), s1) ∧
        plugins spa = html :: plugins client) ∧
     (∀ sk rts s0 s2 entry_source,
        skeleton (config s) = Some sk → enable sk = true →
        skeleton_routes s1 = (Return rts, s0) →
        validateSkeletonRoutes rts (alias (resolve client)) s0
          = (Return (Fulfilled VFalse), s2) →
        readFile (fs s2) (templatesPath "entry-skeleton.tmpl")
          = Some entry_source →
        (∀ objects, ∃ text, lodash_template entry_source objects = inr text) →
        (∀ p text f', is_Some (writeFile p text f')) →
        ∃ spa k s', createSPAConfig w s = (Return (Fulfilled spa), s') ∧
          plugins spa =
            (html :: plugins client ++
               [SkeletonWebpackPlugin k true (mode (router (config s))) rts
                  (negb (isDev s))])%list)).
Proof.
  intros client tpl out baseUrl html. split_and!; intros Hssr.
  - eexists. unfold createSPAConfig.
    unfold async at 1, bind at 1, get at 1. rewrite Hssr. cbn [negb ret].
    by split_and!.
  - intros spa s'. unfold createSPAConfig.
    unfold async at 1, bind at 1, get at 1. rewrite Hssr. cbn [negb].
    unfold bind at 1, await at 1, bind at 1.
    rewrite addHtmlPlugin_run.
    destruct (pathExists (fs s) _); [|discriminate].
    destruct (readFile (fs s) _) as [source|]; [|discriminate].
    destruct (templateUtil_client source _) as [msg|text]; [discriminate|].
    cbv zeta.
    destruct (writeFile _ _ _) as [f|]; [|discriminate]. cbn [ret].
    set (s1 := watching _ _ _). set (spa1 := set_plugins _ _).
    destruct (skeleton (config s)) as [sk|] eqn:Hsk.
    2:{ intros [= <- <-]. split; [done|]. eexists. by left. }
    destruct (enable sk) eqn:Hen.
    2:{ intros [= <- <-]. split; [done|]. eexists. by left. }
    unfold await, bind.
    destruct (addSkeletonPlugin spa1 s1) as [res s2] eqn:Hadd.
    destruct (skeleton_routes s1) as [[rts|e] s0] eqn:Hrts.
    2:{ rewrite (proj1 (addSkeletonPlugin_stuck spa1 s1) _ _ Hrts) in Hadd.
        injection Hadd as <- <-. discriminate. }
    destruct (addSkeletonPlugin_frame _ _ _ _ _ _ Hrts Hadd) as (_ & _ & Hshape).
    destruct res as [[spa2|e]|e]; cbn; intros [= <- <-].
    destruct (Hshape spa2 eq_refl) as [->|(k & m & d & ->)].
    + split; [done|]. eexists. by left.
    + split; [done|]. eexists. right. by exists k, m, rts, d, sk.
  - intros source text f Htpl Hread Htext Hwrite s1.
    assert (Hrun : createSPAConfig w s =
      let spa1 :=
        set_plugins (html :: plugins client)
          (set_entry [(DEFAULT_ENTRY_NAME, ["./core/entry-client.js"])]
             (set_context (rootDir (globals (config s)))
                (set_name "spaclient" (set_entry [] client)))) in
      match skeleton (config s) with
      | Some sk =>
          if enable sk then addSkeletonPlugin spa1 s1
          else (Return (Fulfilled spa1), s1)
      | None => (Return (Fulfilled spa1), s1)
      end).
    { unfold createSPAConfig.
      unfold async at 1, bind at 1, get at 1. rewrite Hssr. cbn [negb].
      unfold bind at 1, await at 1, bind at 1.
      rewrite addHtmlPlugin_run. unfold customTemplatePath.
      fold tpl. rewrite Htpl, Hread. fold baseUrl. rewrite Htext.
      cbv zeta. fold out. rewrite Hwrite. cbn [ret]. fold s1.
      destruct (skeleton (config s)) as [sk|]; [|reflexivity].
      destruct (enable sk); [|reflexivity].
      unfold addSkeletonPlugin. by rewrite await_async. }
    split.
    + intros Hoff. rewrite Hrun. cbv zeta.
      destruct Hoff as [-> | (sk & -> & ->)]; eexists; by split.
    + intros sk rts s0 s2 entry_source Hsk Hen Hrts Hv Hentry Hrender Htotal.
      rewrite Hrun, Hsk, Hen. cbv zeta.
      apply async_fulfilled_inv in Hv.
      erewrite addSkeletonPlugin_run; [|exact Hrts|exact Hv]. cbn [has_msg].
      assert (Hpre : ∀ l, l ∈ rts →
        ∃ r cp, heap s2 !! l = Some r ∧ componentPath r = Some cp).
      { intros l Hin.
        destruct (validate_loop_resolved _ _ _ _ Hv l Hin)
          as (r0 & p & _ & Hl & _).
        by exists (set_componentPath p r0), p. }
      destruct (skeleton_bundle_run rts
        (set_plugins (html :: plugins client)
          (set_entry [(DEFAULT_ENTRY_NAME, ["./core/entry-client.js"])]
             (set_context (rootDir (globals (config s)))
                (set_name "spaclient" (set_entry [] client)))))
        (router (config s1)) s2 entry_source Hpre Hentry Hrender Htotal)
        as (k & s' & Hbundle & _).
      assert (isDev s2 = isDev s) as HisDev.
      { destruct (validate_loop_effect _ _ _ _ _ Hv) as (-> & _).
        rewrite skeleton_routes_run in Hrts.
        destruct (skeleton (config s1)) as [sk1|]; [|discriminate].
        destruct (routes sk1) as [[|? ?]|]; injection Hrts as <- <-;
          unfold s1, watching; by destruct w. }
      assert (router (config s1) = router (config s)) as Hrouter.
      { unfold s1, watching. by destruct w. }
      rewrite HisDev, Hrouter in Hbundle.
      eexists _, k, s'. unfold async. rewrite Hrouter, Hbundle. by split.
Qed.

(** C8. When [skeleton.routes] is undefined or empty, [addSkeletonPlugin]
    first creates the route [{path: '*', componentPath:
    DEFAULT_SKELETON_PATH}] and stores the one-element array in the shared
    config.  From there on the method behaves as on a config in which that
    route had been listed by the user: nothing more is installed, the run is
    the run from that state, and the config keeps the installed array
    whatever the outcome.  The default route is validated: when neither
    candidate of [DEFAULT_SKELETON_PATH] exists the message naming it is
    printed and the webpack config comes back as given.  And it is used:
    when a candidate exists the route receives the resolved path, its
    [componentName], [componentNameInDash] and [skeletonId],
    [skeletonEnabled] is set, and a config that is returned has the
    skeleton plugin, over the array of that one route, after its
    plugins. *)
Theorem addSkeletonPlugin_default_route spa s sk :
  skeleton (config s) = Some sk →
  routes sk = None ∨ routes sk = Some [] →
  let l := length (heap s) in
  let star :=
    {| path := Some "*"; componentPath := Some DEFAULT_SKELETON_PATH;
       skeletonId := None; componentName := None;
       componentNameInDash := None |} in
  let s0 :=
    set_config (set_routes [l] (config s)) (set_heap (heap s ++ [star]) s) in
  let c1 := join [rootDir (globals (config s)); DEFAULT_SKELETON_PATH] in
  let c2 := resolveAliasPath (alias (resolve spa)) DEFAULT_SKELETON_PATH in
  skeleton_routes s = (Return [l], s0) ∧
  heap s0 !! l = Some star ∧
  skeleton (config s0) = Some (mkSkeleton (enable sk) (Some [l])) ∧
  skeleton_routes s0 = (Return [l], s0) ∧
  addSkeletonPlugin spa s = addSkeletonPlugin spa s0 ∧
  (∀ out s', addSkeletonPlugin spa s = (out, s') → config s' = config s0) ∧
  (DEFAULT_SKELETON_PATH ≠ "" →
   pathExists (fs s) c1 = false → pathExists (fs s) c2 = false →
   addSkeletonPlugin spa s =
     (Return (Fulfilled spa),
      set_console
        (console s ++
           ["[Lavas] " +:+ DEFAULT_SKELETON_PATH +:+
            " is not existed during the process of generating skeleton."])
        s0)) ∧
  (∀ p, DEFAULT_SKELETON_PATH ≠ "" →
     List.find (pathExists (fs s)) [c1; c2] = Some p →
     ∃ out s', addSkeletonPlugin spa s = (Return out, s') ∧
       heap s' !! l =
         Some {| path := Some "*";
                 componentPath := Some p;
                 skeletonId := Some (camelCaseToDash (basename p ".vue"));
                 componentName := Some (basename p ".vue");
                 componentNameInDash :=
                   Some (camelCaseToDash (basename p ".vue")) |} ∧
       skeletonEnabled s' = true ∧
       ∀ spa', out = Fulfilled spa' →
         ∃ k d,
           plugins spa' =
             (plugins spa ++
                [SkeletonWebpackPlugin k true (mode (router (config s))) [l]
                   d])%list).
Proof.
  intros Hsk Hroutes l star s0 c1 c2.
  assert (Hrts : skeleton_routes s = (Return [l], s0)).
  { rewrite skeleton_routes_run, Hsk. by destruct Hroutes as [-> | ->]. }
  assert (Hcfg : skeleton (config s0) = Some (mkSkeleton (enable sk) (Some [l]))).
  { cbn. by rewrite Hsk. }
  assert (Hrts0 : skeleton_routes s0 = (Return [l], s0)).
  { by rewrite skeleton_routes_run, Hcfg. }
  assert (Hstar : heap s0 !! l = Some star).
  { cbn. by rewrite lookup_app_r, Nat.sub_diag. }
  assert (Hloop : DEFAULT_SKELETON_PATH ≠ "" →
    validate_loop [l] (alias (resolve spa)) s0 =
    if pathExists (fs s) c1 then (Return VFalse, assigned l c1 star s0)
    else if pathExists (fs s) c2 then (Return VFalse, assigned l c2 star s0)
    else (Return (VError (msg_not_existed DEFAULT_SKELETON_PATH)), s0)).
  { intros Hne. rewrite validate_loop_cons, Hstar. cbn [componentPath star
      truthy interp]. apply String.eqb_neq in Hne. rewrite Hne. cbn [negb].
    reflexivity. }
  split_and!; [done..| | | |].
  - destruct (validate_loop [l] (alias (resolve spa)) s0) as [[v|e] s1] eqn:Hv.
    + by rewrite (addSkeletonPlugin_run _ _ _ _ _ _ Hrts Hv),
        (addSkeletonPlugin_run _ _ _ _ _ _ Hrts0 Hv).
    + by rewrite (proj2 (addSkeletonPlugin_stuck spa s) _ _ _ _ Hrts Hv),
        (proj2 (addSkeletonPlugin_stuck spa s0) _ _ _ _ Hrts0 Hv).
  - intros out s' Hrun.
    by destruct (addSkeletonPlugin_frame _ _ _ _ _ _ Hrts Hrun) as (? & _).
  - intros Hne E1 E2. specialize (Hloop Hne). rewrite E1, E2 in Hloop.
    by rewrite (addSkeletonPlugin_run _ _ _ _ _ _ Hrts Hloop).
  - intros p Hne Hfind. specialize (Hloop Hne).
    assert (Hv : validate_loop [l] (alias (resolve spa)) s0 =
      (Return VFalse, assigned l p star s0)).
    { rewrite Hloop. cbn in Hfind.
      destruct (pathExists (fs s) c1); [by injection Hfind as ->|].
      destruct (pathExists (fs s) c2); [by injection Hfind as ->|].
      discriminate. }
    rewrite (addSkeletonPlugin_run _ _ _ _ _ _ Hrts Hv). cbn [has_msg].
    assert (Hl1 : heap (assigned l p star s0) !! l
                  = Some (set_componentPath p star))
      by (by apply assigned_lookup).
    destruct (skeleton_bundle_heap [l] spa (router (config s))
      (assigned l p star s0)) as (c & s' & Hrun & Hen & Hin & _).
    { intros l' Hl'. apply list_elem_of_singleton in Hl' as ->.
      by exists (set_componentPath p star), p. }
    pose proof (skeleton_bundle_frame _ _ _ _ _ _ Hrun) as (_ & _ & _ & Hshape).
    unfold async. rewrite Hrun.
    exists (match c with Return a => Fulfilled a | Throw e => Rejected e end),
      s'.
    split_and!; [by destruct c| |done|].
    + rewrite (Hin l), Hl1 by apply list_elem_of_here. reflexivity.
    + intros spa' Hout. destruct c as [spa2|e]; [|discriminate].
      injection Hout as <-.
      destruct (Hshape spa2 eq_refl) as (k & d & ->). by exists k, d.
Qed.

(** C10. After a successful validation [addSkeletonPlugin] gives every
    route of the list a [componentName], the base name of its component path
    without [.vue], and a [componentNameInDash], the dashed form of that
    name; [skeletonId] becomes the dashed name only when the route had no
    truthy [skeletonId], and is kept otherwise.  This holds in the final
    state whether or not the entry file could then be written. *)
Theorem addSkeletonPlugin_annotates_routes spa s rts s0 s1 :
  skeleton_routes s = (Return rts, s0) →
  validateSkeletonRoutes rts (alias (resolve spa)) s0
    = (Return (Fulfilled VFalse), s1) →
  ∃ out s', addSkeletonPlugin spa s = (Return out, s') ∧
    ∀ l, l ∈ rts →
      ∃ r cp, heap s1 !! l = Some r ∧ componentPath r = Some cp ∧
        heap s' !! l =
          Some {| path := path r;
                  componentPath := Some cp;
                  skeletonId :=
                    (if truthy (skeletonId r) then skeletonId r
                     else Some (camelCaseToDash (basename cp ".vue")));
                  componentName := Some (basename cp ".vue");
                  componentNameInDash :=
                    Some (camelCaseToDash (basename cp ".vue")) |}.
Proof.
  intros Hrts Hv. apply async_fulfilled_inv in Hv.
  rewrite (addSkeletonPlugin_run _ _ _ _ _ _ Hrts Hv). cbn [has_msg].
  assert (Hpre : ∀ l, l ∈ rts →
    ∃ r cp, heap s1 !! l = Some r ∧ componentPath r = Some cp).
  { intros l Hin.
    destruct (validate_loop_resolved _ _ _ _ Hv l Hin) as (r0 & p & _ & Hl & _).
    by exists (set_componentPath p r0), p. }
  destruct (skeleton_bundle_heap rts spa (router (config s)) s1 Hpre)
    as (c & s' & Hrun & _ & Hin & _).
  unfold async. rewrite Hrun.
  exists (match c with Return a => Fulfilled a | Throw e => Rejected e end), s'.
  split; [by destruct c|].
  intros l Hl. destruct (Hpre l Hl) as (r & cp & Hr & Hcp).
  exists r, cp. split_and!; [done..|].
  rewrite (Hin l Hl), Hr. cbn. unfold annotated, annotate, or_else.
  by rewrite Hcp.
Qed.

(** * Further properties of the builder *)

(** ** validateSkeletonRoutes *)

(** X1. Routes that can all be resolved validate: when no object is listed
    twice and every listed route has a non-empty component path one of whose
    two candidates exists, the method returns [false]. *)
Theorem validateSkeletonRoutes_resolvable_succeeds rts al s :
  NoDup rts →
  (∀ l, l ∈ rts →
     ∃ r cp, heap s !! l = Some r ∧ componentPath r = Some cp ∧ cp ≠ "" ∧
       (pathExists (fs s) (join [rootDir (globals (config s)); cp]) = true ∨
        pathExists (fs s) (resolveAliasPath al cp) = true)) →
  ∃ s', validateSkeletonRoutes rts al s = (Return (Fulfilled VFalse), s').
Proof.
  intros Hnd Hok.
  cut (∃ s', validate_loop rts al s = (Return VFalse, s')).
  { intros [s' Hrun]. exists s'. by apply async_fulfilled. }
  revert s Hok. induction rts as [|l0 rts IH]; intros s Hok; [by eexists|].
  apply NoDup_cons in Hnd as [Hl0 Hnd].
  destruct (Hok l0) as (r0 & cp & Hr0 & Hcp & Hne & Hcand); [by left|].
  rewrite validate_loop_cons, Hr0, Hcp. cbn [truthy interp].
  apply String.eqb_neq in Hne. rewrite Hne. cbn [negb]. cbv zeta.
  assert (Hgo : ∀ p, ∃ s',
    validate_loop rts al (assigned l0 p r0 s) = (Return VFalse, s')).
  { intros p. apply IH; [done|]. intros l Hin.
    assert (l ≠ l0) by (by intros ->).
    destruct (Hok l) as (r & cp' & Hr & Hrest); [by right|].
    exists r, cp'. split; [|done]. cbn. by rewrite list_lookup_insert_ne. }
  destruct (pathExists (fs s) (join _)); [apply Hgo|].
  destruct (pathExists (fs s) (resolveAliasPath _ _)); [apply Hgo|].
  by destruct Hcand.
Qed.

(** X2. Validation can be run again after it has succeeded, as a rebuild does
    on the same config: if the empty path does not exist and every existing
    path has an existing candidate of its own (for instance because alias
    resolution leaves it alone), the routes it has resolved validate
    again. *)
Theorem validateSkeletonRoutes_revalidates rts al s s' :
  validateSkeletonRoutes rts al s = (Return (Fulfilled VFalse), s') →
  pathExists (fs s) "" = false →
  (∀ p, pathExists (fs s) p = true →
     pathExists (fs s) (join [rootDir (globals (config s)); p]) = true ∨
     pathExists (fs s) (resolveAliasPath al p) = true) →
  ∃ s'', validateSkeletonRoutes rts al s' = (Return (Fulfilled VFalse), s'').
Proof.
  intros Hrun Hempty Hclosed. apply async_fulfilled_inv in Hrun.
  destruct (validate_loop_effect _ _ _ _ _ Hrun) as (Hs' & _ & _).
  pose proof (validate_loop_resolved _ _ _ _ Hrun) as Hres.
  assert (Hcfg : config s' = config s) by (by rewrite Hs').
  assert (Hfs : fs s' = fs s) by (by rewrite Hs').
  cut (∃ s'', validate_loop rts al s' = (Return VFalse, s'')).
  { intros [s'' Hrun']. exists s''. by apply async_fulfilled. }
  assert (Hgood : ∀ l, l ∈ rts →
    ∃ r p, heap s' !! l = Some r ∧ componentPath r = Some p ∧
      pathExists (fs s) p = true).
  { intros l Hin. destruct (Hres l Hin) as (r0 & p & _ & Hl & Hp).
    by exists (set_componentPath p r0), p. }
  clear Hrun Hres Hs'. revert s' Hcfg Hfs Hgood.
  induction rts as [|l0 rts IH]; intros s1 Hcfg Hfs Hgood; [by eexists|].
  destruct (Hgood l0) as (r0 & p & Hr0 & Hcp & Hp); [by left|].
  assert (p ≠ "") as Hne by (intros ->; congruence).
  rewrite validate_loop_cons, Hr0, Hcp. cbn [truthy interp].
  apply String.eqb_neq in Hne. rewrite Hne. cbn [negb]. cbv zeta.
  rewrite Hcfg, Hfs.
  assert (Hgo : ∀ q, pathExists (fs s) q = true → ∃ s'',
    validate_loop rts al (assigned l0 q r0 s1) = (Return VFalse, s'')).
  { intros q Hq. apply IH; [done..|]. intros l Hin.
    destruct (decide (l = l0)) as [->|Hl].
    - exists (set_componentPath q r0), q.
      split; [by apply assigned_lookup|done].
    - destruct (Hgood l) as (r & p' & Hr & Hrest); [by right|].
      exists r, p'. split; [|done]. cbn. by rewrite list_lookup_insert_ne. }
  destruct (pathExists (fs s) (join _)) eqn:E1; [by apply Hgo|].
  destruct (pathExists (fs s) (resolveAliasPath _ _)) eqn:E2; [by apply Hgo|].
  destruct (Hclosed p Hp); congruence.
Qed.

(** X3. An error descriptor always has its reason in a listed route, read in
    the final store: either the route has no component path and the message
    asks for it, or it has one, neither candidate exists and the message
    names it. *)
Theorem validateSkeletonRoutes_error_reason rts al s m s' :
  validateSkeletonRoutes rts al s = (Return (Fulfilled (VError m)), s') →
  ∃ l r, l ∈ rts ∧ heap s' !! l = Some r ∧
    ((truthy (componentPath r) = false ∧
      m = "[Lavas] componentPath for " +:+ interp (path r) +:+
          " is required.") ∨
     (∃ cp, componentPath r = Some cp ∧ cp ≠ "" ∧
        pathExists (fs s') (join [rootDir (globals (config s')); cp])
          = false ∧
        pathExists (fs s') (resolveAliasPath al cp) = false ∧
        m = "[Lavas] " +:+ cp +:+
            " is not existed during the process of generating skeleton.")).
Proof.
  intros Hrun. apply async_fulfilled_inv in Hrun.
  destruct (validate_loop_error_index _ _ _ _ _ Hrun)
    as (i & l & Hi & _ & Hl).
  exists l. rewrite validate_loop_cons in Hl.
  destruct (heap s' !! l) as [r|] eqn:Hr; [|discriminate].
  exists r. split; [by eapply list_elem_of_lookup_2|]. split; [done|].
  destruct (truthy (componentPath r)) eqn:Ht.
  - right. apply truthy_interp in Ht as Hcp.
    exists (interp (componentPath r)). cbv zeta in Hl.
    destruct (pathExists _ (join _)) eqn:E1; [discriminate|].
    destruct (pathExists _ (resolveAliasPath _ _)) eqn:E2; [discriminate|].
    injection Hl as <-. split_and!; [done| |done..].
    intros Hempty. rewrite Hcp, Hempty in Ht. discriminate.
  - left. by injection Hl as <-.
Qed.

(** X4. The footprint of a validation, whatever its outcome: the config, the
    file system, the console and the flags are untouched, no object is
    created, and a route changes at most in its [componentPath], which
    happens only to listed routes. *)
Theorem validateSkeletonRoutes_footprint rts al s out s' :
  validateSkeletonRoutes rts al s = (out, s') →
  config s' = config s ∧ fs s' = fs s ∧ console s' = console s ∧
  skeletonEnabled s' = skeletonEnabled s ∧ watchers s' = watchers s ∧
  length (heap s') = length (heap s) ∧
  ∀ l r, heap s !! l = Some r →
    ∃ r', heap s' !! l = Some r' ∧
      path r' = path r ∧ skeletonId r' = skeletonId r ∧
      componentName r' = componentName r ∧
      componentNameInDash r' = componentNameInDash r ∧
      (l ∉ rts → r' = r).
Proof.
  unfold validateSkeletonRoutes, async.
  destruct (validate_loop rts al s) as [c s1] eqn:Hrun. intros Hout.
  assert (s1 = s') as -> by (destruct c; by injection Hout).
  destruct (validate_loop_effect _ _ _ _ _ Hrun) as (Hs' & Hlen & Hobj).
  split_and!; [by rewrite Hs'..|done|].
  intros l r Hl. destruct (Hobj l r Hl) as (r' & Hr' & Hcase).
  exists r'. split; [done|].
  destruct Hcase as [->|(Hin & p & _ & ->)]; [done|]. by split_and!.
Qed.

(** ** addHtmlPlugin *)

(** X6. A failure of [addHtmlPlugin] is atomic: when its promise is rejected
    the builder is exactly as before (no file written, no plugin, no
    watcher), and the reason is one of four: the template is missing, or it
    could not be read, or rendering it threw, or the rendered template could
    not be written. *)
Theorem addHtmlPlugin_failure_is_atomic spa b w s e s' :
  addHtmlPlugin spa b w s = (Return (Rejected e), s') →
  let tpl := join [rootDir (globals (config s)); "core/" +:+ TEMPLATE_HTML] in
  let out := join [rootDir (globals (config s)); "./.lavas"; TEMPLATE_HTML] in
  s' = s ∧
  ((pathExists (fs s) tpl = false ∧
    e = Error (TEMPLATE_HTML +:+ " required for entry: " +:+
               DEFAULT_ENTRY_NAME)) ∨
   (pathExists (fs s) tpl = true ∧ readFile (fs s) tpl = None ∧
    e = SystemError "open" tpl) ∨
   (pathExists (fs s) tpl = true ∧
    ∃ source msg, readFile (fs s) tpl = Some source ∧
      templateUtil_client source (default "/" b) = inl msg ∧
      e = TemplateError msg) ∨
   (pathExists (fs s) tpl = true ∧
    (∃ source text, readFile (fs s) tpl = Some source ∧
       templateUtil_client source (default "/" b) = inr text ∧
       writeFile out text (fs s) = None) ∧
    e = SystemError "write" out)).
Proof.
  intros Hrun tpl out. rewrite addHtmlPlugin_run in Hrun.
  unfold customTemplatePath in Hrun.
  fold tpl in Hrun. destruct (pathExists (fs s) tpl).
  - destruct (readFile (fs s) tpl) as [source|].
    + destruct (templateUtil_client source _) as [msg|text] eqn:Htext.
      * injection Hrun as <- <-. split; [done|]. right. right. left.
        split; [done|]. by exists source, msg.
      * cbv zeta in Hrun. fold out in Hrun.
        destruct (writeFile out _ _) as [f|] eqn:Hw; [discriminate|].
        injection Hrun as <- <-. split; [done|]. right. right. right.
        split_and!; [done| |done]. by exists source, text.
    + injection Hrun as <- <-. split; [done|]. right. left. eauto.
  - injection Hrun as <- <-. split; [done|]. by left.
Qed.

(** X7. A success of [addHtmlPlugin] does three things and nothing else: the
    template is read and its processed form, for the base URL or for [/]
    when none is given, is written to the [.lavas] directory; a plugin
    pointing to the written file is put in front of the plugins, the rest
    of the webpack config being kept; and a watcher of the template is
    registered exactly when watching is enabled. *)
Theorem addHtmlPlugin_success_effect spa b w s spa' s' :
  addHtmlPlugin spa b w s = (Return (Fulfilled spa'), s') →
  let tpl := join [rootDir (globals (config s)); "core/" +:+ TEMPLATE_HTML] in
  let out := join [rootDir (globals (config s)); "./.lavas"; TEMPLATE_HTML] in
  let baseUrl := default "/" b in
  (∃ source text, readFile (fs s) tpl = Some source ∧
     templateUtil_client source baseUrl = inr text ∧
     writeFile out text (fs s) = Some (fs s')) ∧
  (∃ o, plugins spa' = HtmlWebpackPlugin o :: plugins spa ∧
     template o = out ∧ filename o = DEFAULT_ENTRY_NAME +:+ ".html") ∧
  entry spa' = entry spa ∧ name spa' = name spa ∧
  context spa' = context spa ∧ resolve spa' = resolve spa ∧
  watchers s' =
    (watchers s ++ if w then [mkWatcher tpl "change" baseUrl] else [])%list ∧
  config s' = config s ∧ heap s' = heap s ∧ console s' = console s ∧
  skeletonEnabled s' = skeletonEnabled s.
Proof.
  intros Hrun tpl out. rewrite addHtmlPlugin_run in Hrun.
  unfold customTemplatePath in Hrun.
  fold tpl in Hrun. destruct (pathExists (fs s) tpl); [|discriminate].
  destruct (readFile (fs s) tpl) as [source|]; [|discriminate].
  destruct (templateUtil_client source _) as [msg|text] eqn:Htext;
    [discriminate|].
  cbv zeta in Hrun. fold out in Hrun.
  destruct (writeFile out _ _) as [f|] eqn:Hw; [|discriminate].
  injection Hrun as <- <-. intros baseUrl. subst baseUrl.
  assert (fs (watching w (default "/" b) (set_fs f s)) = f) as Hfs
    by (by destruct w).
  split_and!; try (by destruct w); try done.
  - exists source, text. by rewrite Hfs.
  - eexists. by split_and!.
  - unfold watching, customTemplatePath. destruct w; cbn; [done|].
    by rewrite app_nil_r.
Qed.

(** ** addSkeletonPlugin *)

Lemma mapM_deref_lookup rts s objects s' :
  mapM deref rts s = (Return objects, s') →
  Forall2 (λ l o, heap s !! l = Some o) rts objects.
Proof.
  revert objects. induction rts as [|l rts IH]; intros objects Hrun.
  { injection Hrun as <- <-. constructor. }
  cbn [mapM] in Hrun. unfold bind at 1, deref at 1 in Hrun.
  destruct (heap s !! l) as [r|] eqn:Hl; [|discriminate].
  unfold bind at 1 in Hrun.
  destruct (mapM deref rts s) as [[rs|e] s1] eqn:Hrest; [|discriminate].
  pose proof (mapM_deref_state _ _ _ _ Hrest) as ->.
  injection Hrun as <- <-. constructor; [done|]. by eapply IH.
Qed.

(** The two ways [writeSkeletonEntry] ends: rejected with the builder
    unchanged, or fulfilled after one write of the rendered entry. *)
Lemma writeSkeletonEntry_inv rts s c s' :
  writeSkeletonEntry rts s = (c, s') →
  let tp := templatesPath "entry-skeleton.tmpl" in
  let out := join [rootDir (globals (config s)); "./.lavas"; "skeleton.js"] in
  (∃ e, c = Return (Rejected e) ∧ s' = s ∧
     (readFile (fs s) tp = None → e = SystemError "open" tp)) ∨
  (∃ source objects text,
     c = Return (Fulfilled out) ∧
     readFile (fs s) tp = Some source ∧
     Forall2 (λ l o, heap s !! l = Some o) rts objects ∧
     lodash_template source objects = inr text ∧
     writeFile out text (fs s) = Some (fs s') ∧
     s' = set_fs (fs s') s).
Proof.
  intros Hrun tp out. revert Hrun.
  unfold writeSkeletonEntry. unfold async at 1, bind at 1, await at 1.
  unfold bind at 1, fs_readFile at 1, async at 1. fold tp.
  destruct (readFile (fs s) tp) as [source|]; cbn [ret throw].
  2:{ intros [= <- <-]. left. eauto. }
  unfold bind at 1.
  destruct (mapM deref rts s) as [[objects|e] s1] eqn:Hobjs;
    pose proof (mapM_deref_state _ _ _ _ Hobjs) as ->.
  2:{ intros [= <- <-]. left. eexists. by split_and!. }
  apply mapM_deref_lookup in Hobjs.
  destruct (lodash_template source objects) as [msg|text] eqn:Hrender.
  { intros [= <- <-]. left. eexists. by split_and!. }
  unfold await, bind. rewrite writeFileToLavasDir_run. cbv zeta. fold out.
  destruct (writeFile out text (fs s)) as [f|] eqn:Hw; cbn;
    intros [= <- <-].
  - right. exists source, objects, text. by split_and!.
  - left. eexists. by split_and!.
Qed.

(** X8. After a successful validation [skeletonEnabled] is set before the entry
    file is generated: whatever happens then the flag is on, and when the
    entry template cannot be read the promise is rejected with the error of
    the read, no file is written, and the flag stays on although no plugin
    was added. *)
Theorem addSkeletonPlugin_enabled_before_entry spa s rts s0 s1 :
  skeleton_routes s = (Return rts, s0) →
  validateSkeletonRoutes rts (alias (resolve spa)) s0
    = (Return (Fulfilled VFalse), s1) →
  (∀ out s', addSkeletonPlugin spa s = (out, s') →
     skeletonEnabled s' = true) ∧
  (readFile (fs s1) (templatesPath "entry-skeleton.tmpl") = None →
   ∃ s', addSkeletonPlugin spa s =
       (Return (Rejected
          (SystemError "open" (templatesPath "entry-skeleton.tmpl"))), s') ∧
     skeletonEnabled s' = true ∧ fs s' = fs s).
Proof.
  intros Hrts Hv. apply async_fulfilled_inv in Hv.
  rewrite (addSkeletonPlugin_run _ _ _ _ _ _ Hrts Hv). cbn [has_msg].
  assert (Hpre : ∀ l, l ∈ rts →
    ∃ r cp, heap s1 !! l = Some r ∧ componentPath r = Some cp).
  { intros l Hin.
    destruct (validate_loop_resolved _ _ _ _ Hv l Hin) as (r0 & p & _ & Hl & _).
    by exists (set_componentPath p r0), p. }
  split.
  - destruct (skeleton_bundle_heap rts spa (router (config s)) s1 Hpre)
      as (c & s2 & Hrun & Hen & _).
    unfold async. rewrite Hrun. intros out s'. by destruct c; intros [= _ <-].
  - intros Hread.
    destruct (forEach_annotate_run rts s1 Hpre) as (s2 & Hfe & _).
    destruct (forEach_annotate_frame _ _ _ _ Hfe) as [Hs2 _].
    destruct (validate_loop_effect _ _ _ _ _ Hv) as (Hs1 & _ & _).
    assert (fs s0 = fs s) as Hfs0.
    { rewrite skeleton_routes_run in Hrts.
      destruct (skeleton (config s)) as [sk|]; [|discriminate].
      destruct (routes sk) as [[|? ?]|]; by injection Hrts as <- <-. }
    unfold async, skeleton_bundle. unfold bind at 1. rewrite Hfe.
    unfold bind at 1, modify at 1. unfold bind at 1, await at 1, bind at 1.
    destruct (writeSkeletonEntry rts _) as [c3 s3] eqn:Hw.
    apply writeSkeletonEntry_inv in Hw. cbv zeta in Hw.
    assert (fs (set_skeletonEnabled true s2) = fs s1) as Hfs2
      by (by rewrite Hs2).
    rewrite Hfs2 in Hw.
    destruct Hw as [(e & -> & -> & He)|(source & ? & ? & _ & Hsome & _)];
      [|congruence].
    rewrite (He Hread). cbn. eexists. split; [reflexivity|]. cbn.
    split; [done|]. by rewrite Hs2, Hs1.
Qed.

(** X9. What a fulfilled [addSkeletonPlugin] has built after a successful
    validation: the entry file [.lavas/skeleton.js] holds the entry template
    rendered over the routes as they are in the end, annotations included;
    the skeleton webpack config is the server config (asked for with
    [cssExtract]) with its last plugin dropped and that file as its only
    entry, its name, context and resolve being kept; and the plugin is
    added after the plugins that were there, the rest of the webpack config
    being kept. *)
Theorem addSkeletonPlugin_bundle_shape spa s rts s0 s1 spa' s' :
  skeleton_routes s = (Return rts, s0) →
  validateSkeletonRoutes rts (alias (resolve spa)) s0
    = (Return (Fulfilled VFalse), s1) →
  addSkeletonPlugin spa s = (Return (Fulfilled spa'), s') →
  let out := join [rootDir (globals (config s)); "./.lavas"; "skeleton.js"] in
  let server := webpackConfig_server (config s0) true in
  let k :=
    mkWebpackCfg [(DEFAULT_ENTRY_NAME, [out])] (name server) (context server)
      (removelast (plugins server)) (resolve server) in
  spa' =
    mkWebpackCfg (entry spa) (name spa) (context spa)
      (plugins spa ++
         [SkeletonWebpackPlugin k true (mode (router (config s))) rts
            (negb (isDev s))])
      (resolve spa) ∧
  ∃ source objects text,
    readFile (fs s) (templatesPath "entry-skeleton.tmpl") = Some source ∧
    Forall2 (λ l o, heap s' !! l = Some o) rts objects ∧
    lodash_template source objects = inr text ∧
    writeFile out text (fs s) = Some (fs s').
Proof.
  intros Hrts Hv Hrun out server k. apply async_fulfilled_inv in Hv.
  rewrite (addSkeletonPlugin_run _ _ _ _ _ _ Hrts Hv) in Hrun.
  cbn [has_msg] in Hrun. apply async_fulfilled_inv in Hrun.
  assert (Hpre : ∀ l, l ∈ rts →
    ∃ r cp, heap s1 !! l = Some r ∧ componentPath r = Some cp).
  { intros l Hin.
    destruct (validate_loop_resolved _ _ _ _ Hv l Hin) as (r0 & p & _ & Hl & _).
    by exists (set_componentPath p r0), p. }
  destruct (forEach_annotate_run rts s1 Hpre) as (s2 & Hfe & _).
  destruct (forEach_annotate_frame _ _ _ _ Hfe) as [Hs2 _].
  destruct (validate_loop_effect _ _ _ _ _ Hv) as (Hs1 & _ & _).
  assert (fs s0 = fs s ∧ isDev s0 = isDev s ∧
          globals (config s0) = globals (config s)) as (Hfs0 & Hdev0 & Hg0).
  { rewrite skeleton_routes_run in Hrts.
    destruct (skeleton (config s)) as [sk|]; [|discriminate].
    destruct (routes sk) as [[|? ?]|]; by injection Hrts as <- <-. }
  revert Hrun. unfold skeleton_bundle. unfold bind at 1. rewrite Hfe.
  unfold bind at 1, modify at 1. unfold bind at 1, await at 1, bind at 1.
  destruct (writeSkeletonEntry rts _) as [c3 s3] eqn:Hw.
  apply writeSkeletonEntry_inv in Hw. cbv zeta in Hw.
  destruct Hw as [(e & -> & -> & _)|
    (source & objects & text & -> & Hread & Hobjs & Hrender & Hwrite & Hs3)];
    [discriminate|].
  assert (fs (set_skeletonEnabled true s2) = fs s) as Hfs2
    by (by rewrite Hs2, Hs1).
  assert (globals (config (set_skeletonEnabled true s2))
          = globals (config s)) as Hg2 by (by rewrite Hs2, Hs1).
  assert (heap s3 = heap s2) as Hheap3 by (by rewrite Hs3).
  assert (config s3 = config s0) as Hcfg3 by (by rewrite Hs3, Hs2, Hs1).
  assert (isDev s3 = isDev s) as Hdev3 by (by rewrite Hs3, Hs2, Hs1).
  rewrite Hfs2 in Hread. rewrite Hfs2, Hg2 in Hwrite. fold out in Hwrite.
  cbn [heap set_skeletonEnabled] in Hobjs. rewrite <- Hheap3 in Hobjs.
  rewrite Hg2. fold out. cbn. intros [= <- <-].
  split; [|by exists source, objects, text].
  rewrite Hcfg3, Hdev3. fold server. reflexivity.
Qed.

(** X10. Routes listed by the user are left in place: with a non-empty
    [skeleton.routes] the method, whatever its outcome, neither replaces the
    array nor changes the config in any other way nor creates an object. *)
Theorem addSkeletonPlugin_keeps_listed_routes spa s sk l rts out s' :
  skeleton (config s) = Some sk →
  routes sk = Some (l :: rts) →
  addSkeletonPlugin spa s = (out, s') →
  config s' = config s ∧ length (heap s') = length (heap s).
Proof.
  intros Hsk Hroutes Hrun.
  assert (Hrts : skeleton_routes s = (Return (l :: rts), s)).
  { by rewrite skeleton_routes_run, Hsk, Hroutes. }
  by destruct (addSkeletonPlugin_frame _ _ _ _ _ _ Hrts Hrun) as (? & ? & _).
Qed.

(** ** createSPAConfig *)

Lemma createSPAConfig_unfold w s :
  createSPAConfig w s =
  if ssr (build (config s)) then (Return (Fulfilled (spa_base s)), s)
  else
    match addHtmlPlugin (spa_client s) (base (router (config s))) w s with
    | (Return (Fulfilled spa1), s1) =>
        match skeleton (config s) with
        | Some sk =>
            if enable sk then addSkeletonPlugin spa1 s1
            else (Return (Fulfilled spa1), s1)
        | None => (Return (Fulfilled spa1), s1)
        end
    | (Return (Rejected e), s1) => (Return (Rejected e), s1)
    | (Throw e, s1) => (Return (Rejected e), s1)
    end.
Proof.
  unfold createSPAConfig, spa_client, spa_base.
  unfold async at 1, bind at 1, get at 1.
  destruct (ssr (build (config s))); cbn [negb]; [reflexivity|].
  unfold bind at 1, await at 1, bind at 1. cbn [obj_set entry set_entry
    set_name set_context].
  destruct (addHtmlPlugin _ _ _ _) as [[[spa1|e]|e] s1]; cbn [ret throw];
    try reflexivity.
  destruct (skeleton (config s)) as [sk|]; [|reflexivity].
  destruct (enable sk); [|reflexivity].
  unfold addSkeletonPlugin. by rewrite await_async.
Qed.

(** What [addHtmlPlugin] leaves alone, and the shape of its outcomes. *)
Lemma addHtmlPlugin_frame spa b w s out s' :
  addHtmlPlugin spa b w s = (out, s') →
  config s' = config s ∧ heap s' = heap s ∧ console s' = console s ∧
  skeletonEnabled s' = skeletonEnabled s ∧ isDev s' = isDev s ∧
  (∃ p, out = Return p) ∧
  (∀ e, out = Return (Rejected e) → s' = s) ∧
  (∀ spa', out = Return (Fulfilled spa') →
     (∃ o, spa' = set_plugins (HtmlWebpackPlugin o :: plugins spa) spa) ∧
     ∃ text,
       writeFile
         (join [rootDir (globals (config s)); "./.lavas"; TEMPLATE_HTML])
         text (fs s) = Some (fs s')).
Proof.
  rewrite addHtmlPlugin_run.
  destruct (pathExists (fs s) _).
  2:{ intros [= <- <-]. split_and!; eauto; intros ? [=]. }
  destruct (readFile (fs s) _) as [source|].
  2:{ intros [= <- <-]. split_and!; eauto; intros ? [=]. }
  destruct (templateUtil_client source _) as [msg|text].
  { intros [= <- <-]. split_and!; eauto; intros ? [=]. }
  cbv zeta. destruct (writeFile _ _ _) as [f|] eqn:Hw.
  2:{ intros [= <- <-]. split_and!; eauto; intros ? [=]. }
  intros [= <- <-].
  split_and!; try (by destruct w); try (by eauto).
  intros spa' [= <-]. split; [eauto|].
  eexists. rewrite Hw. by destruct w.
Qed.

(** X11. A failed validation of the skeleton routes does not fail the build:
    [createSPAConfig] is still fulfilled, with the config [addHtmlPlugin]
    produced (the HTML plugin in front of the client plugins, no skeleton
    plugin), the message is printed and [skeletonEnabled] is unchanged. *)
Theorem createSPAConfig_skeleton_error_is_logged w s spa1 s1 sk rts s0 m s2 :
  ssr (build (config s)) = false →
  addHtmlPlugin (spa_client s) (base (router (config s))) w s
    = (Return (Fulfilled spa1), s1) →
  skeleton (config s) = Some sk →
  enable sk = true →
  skeleton_routes s1 = (Return rts, s0) →
  validateSkeletonRoutes rts (alias (resolve spa1)) s0
    = (Return (Fulfilled (VError m)), s2) →
  ∃ s', createSPAConfig w s = (Return (Fulfilled spa1), s') ∧
    (∃ o, plugins spa1 =
            HtmlWebpackPlugin o :: plugins (webpackConfig_client (config s))) ∧
    console s' = (console s ++ [m])%list ∧
    skeletonEnabled s' = skeletonEnabled s.
Proof.
  intros Hssr Hhtml Hsk Hen Hrts Hv. apply async_fulfilled_inv in Hv.
  rewrite createSPAConfig_unfold, Hssr, Hhtml, Hsk, Hen.
  rewrite (addSkeletonPlugin_run _ _ _ _ _ _ Hrts Hv).
  rewrite (validate_loop_has_msg _ _ _ _ _ Hv).
  destruct (addHtmlPlugin_frame _ _ _ _ _ _ Hhtml)
    as (_ & _ & Hc1 & He1 & _ & _ & _ & Hshape).
  destruct (Hshape spa1 eq_refl) as [[o ->] _].
  destruct (validate_loop_effect _ _ _ _ _ Hv) as (Hs2 & _ & _).
  assert (console s0 = console s1 ∧ skeletonEnabled s0 = skeletonEnabled s1)
    as [Hc0 He0].
  { rewrite skeleton_routes_run in Hrts.
    destruct (skeleton (config s1)) as [sk1|]; [|discriminate].
    destruct (routes sk1) as [[|? ?]|]; by injection Hrts as <- <-. }
  eexists. split; [reflexivity|]. cbn. rewrite Hs2. cbn.
  split_and!; [by eexists|by rewrite Hc0, Hc1|by rewrite He0, He1].
Qed.

(** X12. Every config [createSPAConfig] returns is named [spaclient], has
    [rootDir] as its context and resolves as the client config does; only
    its entries and plugins differ from the client config. *)
Theorem createSPAConfig_name_and_context w s spa s' :
  createSPAConfig w s = (Return (Fulfilled spa), s') →
  name spa = "spaclient" ∧
  context spa = rootDir (globals (config s)) ∧
  resolve spa = resolve (webpackConfig_client (config s)).
Proof.
  rewrite createSPAConfig_unfold.
  destruct (ssr (build (config s))); [by intros [= <- <-]|].
  destruct (addHtmlPlugin _ _ _ _) as [[[spa1|e]|e] s1] eqn:Hhtml;
    [|discriminate..].
  destruct (addHtmlPlugin_frame _ _ _ _ _ _ Hhtml)
    as (_ & _ & _ & _ & _ & _ & _ & Hshape).
  destruct (Hshape spa1 eq_refl) as [[o ->] _].
  destruct (skeleton (config s)) as [sk|]; [|by intros [= <- <-]].
  destruct (enable sk); [|by intros [= <- <-]].
  intros Hadd.
  destruct (skeleton_routes s1) as [[rts|e] s0] eqn:Hrts.
  2:{ by rewrite (proj1 (addSkeletonPlugin_stuck _ s1) _ _ Hrts) in Hadd. }
  destruct (addSkeletonPlugin_frame _ _ _ _ _ _ Hrts Hadd) as (_ & _ & Hsk).
  by destruct (Hsk spa eq_refl) as [->|(k & m & d & ->)].
Qed.

Lemma skeleton_bundle_writes rts spa ro s c s' :
  skeleton_bundle rts spa ro s = (c, s') →
  fs s' = fs s ∨
  ∃ text,
    writeFile
      (join [rootDir (globals (config s)); "./.lavas"; "skeleton.js"])
      text (fs s) = Some (fs s').
Proof.
  unfold skeleton_bundle. unfold bind at 1.
  destruct (forEach annotate_route rts s) as [[[]|e] s1] eqn:Hfe;
    apply forEach_annotate_frame in Hfe as [Hs1 _].
  2:{ intros [= <- <-]. left. by rewrite Hs1. }
  unfold bind at 1, modify at 1. unfold bind at 1, await at 1, bind at 1.
  destruct (writeSkeletonEntry rts _) as [c2 s2] eqn:Hw.
  apply writeSkeletonEntry_inv in Hw. cbv zeta in Hw.
  assert (fs (set_skeletonEnabled true s1) = fs s) as Hfs by (by rewrite Hs1).
  assert (globals (config (set_skeletonEnabled true s1))
          = globals (config s)) as Hg by (by rewrite Hs1).
  rewrite Hfs, Hg in Hw.
  destruct Hw as [(e & -> & -> & _)|(? & ? & text & -> & _ & _ & _ & Hw & _)];
    cbn; intros [= <- <-]; cbn; [by left|right; eauto].
Qed.

Lemma addSkeletonPlugin_writes spa s out s' :
  addSkeletonPlugin spa s = (out, s') →
  fs s' = fs s ∨
  ∃ text,
    writeFile
      (join [rootDir (globals (config s)); "./.lavas"; "skeleton.js"])
      text (fs s) = Some (fs s').
Proof.
  destruct (skeleton_routes s) as [[rts|e] s0] eqn:Hrts.
  2:{ rewrite (proj1 (addSkeletonPlugin_stuck spa s) _ _ Hrts).
      intros [= <- <-]. left. rewrite skeleton_routes_run in Hrts.
      destruct (skeleton (config s)) as [sk|]; [|by injection Hrts as <- <-].
      by destruct (routes sk) as [[|? ?]|]. }
  assert (fs s0 = fs s ∧ globals (config s0) = globals (config s))
    as [Hfs0 Hg0].
  { rewrite skeleton_routes_run in Hrts.
    destruct (skeleton (config s)) as [sk|]; [|discriminate].
    destruct (routes sk) as [[|? ?]|]; by injection Hrts as <- <-. }
  destruct (validate_loop rts (alias (resolve spa)) s0) as [[v|e] s1] eqn:Hv;
    destruct (validate_loop_effect _ _ _ _ _ Hv) as (Hs1 & _ & _).
  2:{ rewrite (proj2 (addSkeletonPlugin_stuck spa s) _ _ _ _ Hrts Hv).
      intros [= <- <-]. left. by rewrite Hs1. }
  rewrite (addSkeletonPlugin_run _ _ _ _ _ _ Hrts Hv).
  destruct (has_msg v).
  { intros [= <- <-]. left. destruct v; cbn; by rewrite Hs1. }
  unfold async. destruct (skeleton_bundle _ _ _ s1) as [c2 s2] eqn:Hb.
  apply skeleton_bundle_writes in Hb.
  assert (fs s1 = fs s) as Hfs1 by (by rewrite Hs1).
  assert (globals (config s1) = globals (config s)) as Hg1
    by (by rewrite Hs1).
  rewrite Hfs1, Hg1 in Hb. by destruct c2; intros [= <- <-].
Qed.

(** X13. [createSPAConfig] writes at most two files, both in the [.lavas]
    directory of the project: the processed HTML template and then the
    skeleton entry.  Nothing else of the file system is written, whatever
    the outcome. *)
Theorem createSPAConfig_writes_under_lavas w s out s' :
  createSPAConfig w s = (out, s') →
  let lavas := fun p => join [rootDir (globals (config s)); "./.lavas"; p] in
  fs s' = fs s ∨
  ∃ html f1,
    writeFile (lavas TEMPLATE_HTML) html (fs s) = Some f1 ∧
    (fs s' = f1 ∨
     ∃ skeletons, writeFile (lavas "skeleton.js") skeletons f1 = Some (fs s')).
Proof.
  intros Hrun lavas. rewrite createSPAConfig_unfold in Hrun.
  destruct (ssr (build (config s))); [injection Hrun as <- <-; by left|].
  destruct (addHtmlPlugin _ _ _ _) as [c1 s1] eqn:Hhtml.
  destruct (addHtmlPlugin_frame _ _ _ _ _ _ Hhtml)
    as (Hcfg & _ & _ & _ & _ & [p ->] & Hrej & Hful).
  destruct p as [spa1|e].
  2:{ injection Hrun as <- <-. left. by rewrite (Hrej e eq_refl). }
  destruct (Hful spa1 eq_refl) as [_ [html Hw]].
  right. exists html, (fs s1). split; [done|].
  destruct (skeleton (config s)) as [sk|];
    [|injection Hrun as <- <-; by left].
  destruct (enable sk); [|injection Hrun as <- <-; by left].
  apply addSkeletonPlugin_writes in Hrun. rewrite Hcfg in Hrun.
  destruct Hrun as [->|[text Hw2]]; [by left|right; eauto].
Qed.

(** ** The other generated files *)

Section RuntimeProperties.
Context `{Runtime}.

Lemma writeMiddleware_run s :
  writeMiddleware s =
  let tp := templatesPath "middleware.tmpl" in
  let isEmpty :=
    negb (pathExists (fs s)
            (join [rootDir (globals (config s)); "middlewares"])) in
  let dest :=
    join [rootDir (globals (config s)); "./.lavas"; "middleware.js"] in
  match readFile (fs s) tp with
  | None => (Return (Rejected (SystemError "open" tp)), s)
  | Some source =>
      match lodash_template_isEmpty source isEmpty with
      | inl msg => (Return (Rejected (TemplateError msg)), s)
      | inr text =>
          match writeFile dest text (fs s) with
          | None => (Return (Rejected (SystemError "write" dest)), s)
          | Some f => (Return (Fulfilled ()), set_fs f s)
          end
      end
  end.
Proof.
  unfold writeMiddleware, writeFileToLavasDir, lavasPath. mrun.
  destruct (readFile (fs s) _) as [source|]; mrun; [|reflexivity].
  destruct (lodash_template_isEmpty source _) as [msg|text]; mrun;
    [reflexivity|].
  by destruct (writeFile _ _ _).
Qed.

(** X14. [writeMiddleware] renders the middleware template with [isEmpty] true
    exactly when the project has no [middlewares] directory and writes the
    result to [.lavas/middleware.js].  It is fulfilled exactly when the
    template can be read and rendered and the file written; otherwise the
    promise is rejected and the builder is as before.  Apart from that one
    file nothing changes. *)
Theorem writeMiddleware_effect s out s' :
  writeMiddleware s = (out, s') →
  let tp := templatesPath "middleware.tmpl" in
  let isEmpty :=
    negb (pathExists (fs s)
            (join [rootDir (globals (config s)); "middlewares"])) in
  let dest :=
    join [rootDir (globals (config s)); "./.lavas"; "middleware.js"] in
  let written :=
    ∃ source text,
      readFile (fs s) tp = Some source ∧
      lodash_template_isEmpty source isEmpty = inr text ∧
      writeFile dest text (fs s) = Some (fs s') in
  (out = Return (Fulfilled ()) ∧ written ∧ s' = set_fs (fs s') s) ∨
  (∃ e, out = Return (Rejected e) ∧ s' = s ∧
     ¬ (∃ source text f,
          readFile (fs s) tp = Some source ∧
          lodash_template_isEmpty source isEmpty = inr text ∧
          writeFile dest text (fs s) = Some f)).
Proof.
  rewrite writeMiddleware_run. cbv zeta.
  destruct (readFile (fs s) _) as [source|] eqn:Hread.
  2:{ intros [= <- <-]. right. eexists. split_and!; [done..|].
      by intros (? & ? & ? & [=] & _). }
  destruct (lodash_template_isEmpty source _) as [msg|text] eqn:Hrender.
  { intros [= <- <-]. right. eexists. split_and!; [done..|].
    intros (? & ? & ? & [= <-] & Hr & _). congruence. }
  destruct (writeFile _ text (fs s)) as [f|] eqn:Hw; intros [= <- <-].
  - left. split_and!; [done| |done]. by exists source, text.
  - right. eexists. split_and!; [done..|].
    intros (? & ? & ? & [= <-] & Hr & Hw'). congruence.
Qed.

Lemma writeRuntimeConfig_run s :
  writeRuntimeConfig s =
  let dest := join [rootDir (globals (config s)); "./.lavas"; CONFIG_FILE] in
  let json :=
    JsonUtil_stringify
      (JsonUtil_deepPick (config s) (heap s) RUMTIME_ITEMS) 4 in
  match writeFile dest json (fs s) with
  | None => (Return (Rejected (SystemError "write" dest)), s)
  | Some f => (Return (Fulfilled ()), set_fs f s)
  end.
Proof.
  unfold writeRuntimeConfig, writeFileToLavasDir, lavasPath. mrun.
  by destruct (writeFile _ _ _).
Qed.

(** X15. [writeRuntimeConfig] writes one file, [.lavas/CONFIG_FILE], holding the
    runtime items picked from the config as it is at the call and
    serialized with an indentation of 4.  The only way it fails is the
    write itself; the builder is then as before, and in no case is the
    config or a route changed. *)
Theorem writeRuntimeConfig_effect s out s' :
  writeRuntimeConfig s = (out, s') →
  let dest := join [rootDir (globals (config s)); "./.lavas"; CONFIG_FILE] in
  let json :=
    JsonUtil_stringify
      (JsonUtil_deepPick (config s) (heap s) RUMTIME_ITEMS) 4 in
  (out = Return (Fulfilled ()) ∧
   writeFile dest json (fs s) = Some (fs s') ∧ s' = set_fs (fs s') s) ∨
  (out = Return (Rejected (SystemError "write" dest)) ∧
   writeFile dest json (fs s) = None ∧ s' = s).
Proof.
  rewrite writeRuntimeConfig_run. cbv zeta.
  destruct (writeFile _ _ (fs s)) as [f|] eqn:Hw; intros [= <- <-];
    [left|right]; by split_and!.
Qed.

End RuntimeProperties.

End Properties.

(** * Examples on the in-memory platform *)

(** The second route of the list is found through the alias, its first
    candidate [/app/@/core/Skeleton.vue] being absent. *)
Lemma validateSkeletonRoutes_two_candidates_witness :
  validateSkeletonRoutes [0; 1] Demo.at_root
    (Demo.builder [Demo.home; Demo.aliased] [0; 1]) =
  (Return (Fulfilled VFalse),
   Demo.builder
     [set_componentPath "/app/pages/HomeSkeleton.vue" Demo.home;
      set_componentPath "/app/core/Skeleton.vue" Demo.aliased] [0; 1]).
Proof.
  refine (proj1 (validateSkeletonRoutes_two_candidates
    [0] 1 [] Demo.at_root
    (Demo.builder [Demo.home; Demo.aliased] [0; 1])
    (Demo.builder
       [set_componentPath "/app/pages/HomeSkeleton.vue" Demo.home;
        Demo.aliased] [0; 1])
    Demo.aliased "@/core/Skeleton.vue" _ _ _ _)).
  - reflexivity.
  - reflexivity.
  - reflexivity.
  - discriminate.
Defined.

Lemma validateSkeletonRoutes_missing_componentPath_witness :
  validateSkeletonRoutes [0; 1] Demo.at_root
    (Demo.builder [Demo.home; Demo.nameless] [0; 1]) =
  (Return (Fulfilled (VError "[Lavas] componentPath for /n is required.")),
   Demo.builder
     [set_componentPath "/app/pages/HomeSkeleton.vue" Demo.home;
      Demo.nameless] [0; 1]).
Proof.
  refine (proj2 (validateSkeletonRoutes_missing_componentPath
    [0; 1] Demo.at_root (Demo.builder [Demo.home; Demo.nameless] [0; 1]) _ _)
    [0] 1 [] _ Demo.nameless _ _ _ _).
  - repeat constructor; eexists; reflexivity.
  - exists 1, Demo.nameless. split_and!; [|reflexivity..].
    apply list_elem_of_In. simpl. tauto.
  - reflexivity.
  - reflexivity.
  - reflexivity.
  - reflexivity.
Defined.

Lemma validateSkeletonRoutes_success_paths_exist_witness :
  Demo.disk = Demo.disk ∧
  ∀ l, l ∈ [0; 1] →
    ∃ r p,
      [set_componentPath "/app/pages/HomeSkeleton.vue" Demo.home;
       set_componentPath "/app/core/Skeleton.vue" Demo.aliased] !! l
        = Some r ∧
      componentPath r = Some p ∧ Demo.present Demo.disk p = true.
Proof.
  refine (validateSkeletonRoutes_success_paths_exist
    [0; 1] Demo.at_root (Demo.builder [Demo.home; Demo.aliased] [0; 1])
    (Demo.builder
       [set_componentPath "/app/pages/HomeSkeleton.vue" Demo.home;
        set_componentPath "/app/core/Skeleton.vue" Demo.aliased] [0; 1]) _).
  reflexivity.
Defined.

(** Neither the template nor the component of the only route is there. *)
Lemma createSPAConfig_missing_template_first_witness :
  createSPAConfig false (Demo.bare [Demo.ghost] [0]) =
  (Return (Rejected (Error "index.html.tmpl required for entry: main")),
   Demo.bare [Demo.ghost] [0]).
Proof.
  refine (proj1 (createSPAConfig_missing_template_first
    false (Demo.bare [Demo.ghost] [0]) _ _)).
  - reflexivity.
  - reflexivity.
Defined.

(** C5, as the claim states it, fails: without a template the call of
    [addHtmlPlugin] does not throw, it returns a rejected promise. *)
Lemma addHtmlPlugin_throw_is_not_synchronous :
  Demo.present [] (customTemplatePath (Demo.bare [] [])) = false ∧
  ¬ (∃ e s',
       addHtmlPlugin (Demo.client (config (Demo.bare [] []))) None false
         (Demo.bare [] []) = (Throw e, s')) ∧
  addHtmlPlugin (Demo.client (config (Demo.bare [] []))) None false
    (Demo.bare [] []) =
  (Return (Rejected (Error "index.html.tmpl required for entry: main")),
   Demo.bare [] []).
Proof.
  split_and!; [reflexivity| |reflexivity].
  intros (e & s' & Hthrow). discriminate Hthrow.
Qed.

Lemma addHtmlPlugin_rejects_iff_template_missing_witness :
  (∃ s',
     addHtmlPlugin (Demo.client (config (Demo.bare [] []))) None false
       (Demo.bare [] []) =
     (Return (Rejected (Error "index.html.tmpl required for entry: main")),
      s')) ↔
  Demo.present [] "/app/core/index.html.tmpl" = false.
Proof.
  exact (proj1 (proj2 (addHtmlPlugin_rejects_iff_template_missing
    (Demo.client (config (Demo.bare [] []))) None false (Demo.bare [] [])))).
Defined.

(** The component of the second route does not exist: the message is
    printed, the first route keeps its resolved path and nothing else
    happens. *)
Lemma addSkeletonPlugin_validation_error_witness :
  ∃ s',
    addSkeletonPlugin
      (Demo.client (config (Demo.builder [Demo.home; Demo.ghost] [0; 1])))
      (Demo.builder [Demo.home; Demo.ghost] [0; 1]) =
    (Return (Fulfilled
       (Demo.client (config (Demo.builder [Demo.home; Demo.ghost] [0; 1])))),
     s') ∧
    console s' =
      [msg_not_existed "pages/Ghost.vue"] ∧
    fs s' = Demo.disk ∧
    skeletonEnabled s' = false.
Proof.
  destruct (addSkeletonPlugin_validation_error
    (Demo.client (config (Demo.builder [Demo.home; Demo.ghost] [0; 1])))
    (Demo.builder [Demo.home; Demo.ghost] [0; 1]) [0; 1]
    (Demo.builder [Demo.home; Demo.ghost] [0; 1])
    (msg_not_existed "pages/Ghost.vue")
    (Demo.builder
       [set_componentPath "/app/pages/HomeSkeleton.vue" Demo.home; Demo.ghost]
       [0; 1])
    eq_refl eq_refl) as (s' & Hrun & Hconsole & Hfs & Henabled & _).
  exists s'. split_and!; assumption.
Defined.

Lemma createSPAConfig_plugins_witness :
  ∃ spa k s',
    createSPAConfig false (Demo.builder [Demo.home; Demo.aliased] [0; 1])
      = (Return (Fulfilled spa), s') ∧
    plugins spa =
      [HtmlWebpackPlugin
         (html_options "main.html" "/app/.lavas/index.html.tmpl");
       OtherPlugin "define";
       SkeletonWebpackPlugin k true "history" [0; 1] true].
Proof.
  refine (proj2 (proj2 (proj2 (createSPAConfig_plugins false
    (Demo.builder [Demo.home; Demo.aliased] [0; 1]))) _
    "<html></html>" "/<html></html>"
    (("/app/.lavas/index.html.tmpl", "/<html></html>") :: Demo.disk)
    _ _ _ _)
    (mkSkeleton true (Some [0; 1])) [0; 1]
    (Demo.world (Demo.project (Demo.listed [0; 1]) false)
       [Demo.home; Demo.aliased]
       (("/app/.lavas/index.html.tmpl", "/<html></html>") :: Demo.disk))
    (Demo.world (Demo.project (Demo.listed [0; 1]) false)
       [set_componentPath "/app/pages/HomeSkeleton.vue" Demo.home;
        set_componentPath "/app/core/Skeleton.vue" Demo.aliased]
       (("/app/.lavas/index.html.tmpl", "/<html></html>") :: Demo.disk))
    "skeletons:" _ _ _ _ _ _ _).
  - reflexivity.
  - reflexivity.
  - reflexivity.
  - reflexivity.
  - reflexivity.
  - reflexivity.
  - reflexivity.
  - reflexivity.
  - reflexivity.
  - reflexivity.
  - intros objects. eexists. reflexivity.
  - intros p text f. eexists. reflexivity.
Defined.

(** A skeleton config without routes: the default route becomes object 0,
    is resolved through the alias, annotated, and listed by the plugin. *)
Lemma addSkeletonPlugin_default_route_witness :
  ∃ out s',
    addSkeletonPlugin (Demo.client (Demo.project None false))
      (Demo.world (Demo.project (Some (mkSkeleton true None)) false) []
         Demo.disk) = (Return out, s') ∧
    heap s' !! 0 =
      Some (mkRoute (Some "*") (Some "/app/core/Skeleton.vue")
              (Some "skeleton") (Some "Skeleton") (Some "skeleton")) ∧
    skeletonEnabled s' = true ∧
    ∀ spa', out = Fulfilled spa' →
      ∃ k d,
        plugins spa' =
          [OtherPlugin "define";
           SkeletonWebpackPlugin k true "history" [0] d].
Proof.
  refine (proj2 (proj2 (proj2 (proj2 (proj2 (proj2 (proj2
    (addSkeletonPlugin_default_route
       (Demo.client (Demo.project None false))
       (Demo.world (Demo.project (Some (mkSkeleton true None)) false) []
          Demo.disk)
       (mkSkeleton true None) _ _)))))))
    "/app/core/Skeleton.vue" _ _).
  - reflexivity.
  - left. reflexivity.
  - discriminate.
  - reflexivity.
Defined.


(** Two routes on the same component, one with an identifier of its own. *)
Lemma addSkeletonPlugin_annotates_routes_witness :
  ∃ out s',
    addSkeletonPlugin
      (Demo.client (config (Demo.builder [Demo.home; Demo.branded] [0; 1])))
      (Demo.builder [Demo.home; Demo.branded] [0; 1]) = (Return out, s') ∧
    ∀ l, l ∈ [0; 1] →
      ∃ r cp,
        [set_componentPath "/app/pages/HomeSkeleton.vue" Demo.home;
         set_componentPath "/app/core/Skeleton.vue" Demo.branded] !! l
          = Some r ∧
        componentPath r = Some cp ∧
        heap s' !! l =
          Some {| path := path r;
                  componentPath := Some cp;
                  skeletonId :=
                    (if truthy (skeletonId r) then skeletonId r
                     else Some (Demo.camel_to_dash
                                  (Demo.path_basename cp ".vue")));
                  componentName := Some (Demo.path_basename cp ".vue");
                  componentNameInDash :=
                    Some (Demo.camel_to_dash
                            (Demo.path_basename cp ".vue")) |}.
Proof.
  refine (addSkeletonPlugin_annotates_routes
    (Demo.client (config (Demo.builder [Demo.home; Demo.branded] [0; 1])))
    (Demo.builder [Demo.home; Demo.branded] [0; 1]) [0; 1]
    (Demo.builder [Demo.home; Demo.branded] [0; 1])
    (Demo.builder
       [set_componentPath "/app/pages/HomeSkeleton.vue" Demo.home;
        set_componentPath "/app/core/Skeleton.vue" Demo.branded] [0; 1])
    _ _).
  - reflexivity.
  - reflexivity.
Defined.

(** * Examples for the further properties *)

Lemma validateSkeletonRoutes_resolvable_succeeds_witness :
  ∃ s',
    validateSkeletonRoutes [0; 1] Demo.at_root
      (Demo.builder [Demo.home; Demo.aliased] [0; 1])
    = (Return (Fulfilled VFalse), s').
Proof.
  apply validateSkeletonRoutes_resolvable_succeeds.
  - apply (bool_decide_unpack _). exact I.
  - intros l Hin. apply list_elem_of_In in Hin. simpl in Hin.
    destruct Hin as [<-|[<-|[]]].
    + exists Demo.home, "pages/HomeSkeleton.vue".
      split_and!; [reflexivity|reflexivity|discriminate|left; reflexivity].
    + exists Demo.aliased, "@/core/Skeleton.vue".
      split_and!; [reflexivity|reflexivity|discriminate|right; reflexivity].
Defined.

(** The resolved paths are absolute and no alias key is a prefix of them:
    alias resolution leaves them alone and they validate again. *)
Lemma validateSkeletonRoutes_revalidates_witness :
  ∃ s'',
    validateSkeletonRoutes [0; 1] Demo.at_root
      (Demo.builder
         [DemoRuntime.resolved_home; DemoRuntime.resolved_aliased] [0; 1])
    = (Return (Fulfilled VFalse), s'').
Proof.
  apply (validateSkeletonRoutes_revalidates [0; 1] Demo.at_root
    (Demo.builder [Demo.home; Demo.aliased] [0; 1])).
  - reflexivity.
  - reflexivity.
  - intros p Hp. right.
    change (Demo.present Demo.disk p = true) in Hp.
    change (Demo.present Demo.disk (Demo.alias_path Demo.at_root p) = true).
    unfold Demo.present in Hp. cbn -[String.eqb] in Hp.
    repeat match type of Hp with
    | context [String.eqb ?a p] =>
        destruct (String.eqb_spec a p) as [Heq|_];
        [rewrite <- Heq; reflexivity|]
    end.
    discriminate Hp.
Defined.

Lemma validateSkeletonRoutes_error_reason_witness :
  ∃ l r,
    l ∈ [0; 1] ∧
    [DemoRuntime.resolved_home; Demo.ghost] !! l = Some r ∧
    (truthy (componentPath r) = false ∨
     ∃ cp, componentPath r = Some cp ∧
       Demo.present Demo.disk (Demo.alias_path Demo.at_root cp) = false).
Proof.
  destruct (validateSkeletonRoutes_error_reason [0; 1] Demo.at_root
    (Demo.builder [Demo.home; Demo.ghost] [0; 1])
    (msg_not_existed "pages/Ghost.vue")
    (Demo.builder [DemoRuntime.resolved_home; Demo.ghost] [0; 1])
    eq_refl) as (l & r & Hin & Hl & Hreason).
  exists l, r. split_and!; [assumption..|].
  destruct Hreason as [[Hmissing _]|(cp & Hcp & _ & _ & Halias & _)].
  - left. assumption.
  - right. exists cp. split; assumption.
Defined.

Lemma validateSkeletonRoutes_footprint_witness :
  config (Demo.builder [DemoRuntime.resolved_home; Demo.ghost] [0; 1])
    = config (Demo.builder [Demo.home; Demo.ghost] [0; 1]) ∧
  fs (Demo.builder [DemoRuntime.resolved_home; Demo.ghost] [0; 1])
    = Demo.disk.
Proof.
  destruct (validateSkeletonRoutes_footprint [0; 1] Demo.at_root
    (Demo.builder [Demo.home; Demo.ghost] [0; 1])
    (Return (Fulfilled (VError (msg_not_existed "pages/Ghost.vue"))))
    (Demo.builder [DemoRuntime.resolved_home; Demo.ghost] [0; 1])
    eq_refl) as (Hconfig & Hfs & _).
  split; assumption.
Defined.

Lemma addHtmlPlugin_failure_is_atomic_witness :
  Demo.present [] "/app/core/index.html.tmpl" = false ∧
  Error "index.html.tmpl required for entry: main"
    = Error "index.html.tmpl required for entry: main".
Proof.
  destruct (addHtmlPlugin_failure_is_atomic
    (spa_client (Demo.bare [] [])) None false (Demo.bare [] [])
    (Error "index.html.tmpl required for entry: main") (Demo.bare [] [])
    eq_refl)
    as [_ [Hmissing|[(Hpresent & _)|[(Hpresent & _)|(Hpresent & _)]]]].
  - exact Hmissing.
  - discriminate Hpresent.
  - discriminate Hpresent.
  - discriminate Hpresent.
Defined.

Lemma addHtmlPlugin_success_effect_witness :
  ∃ spa' s',
    addHtmlPlugin (spa_client (Demo.builder [] [])) None true
      (Demo.builder [] []) = (Return (Fulfilled spa'), s') ∧
    (∃ o, plugins spa' = [HtmlWebpackPlugin o; OtherPlugin "define"] ∧
       template o = "/app/.lavas/index.html.tmpl" ∧
       filename o = "main.html") ∧
    watchers s' = [mkWatcher "/app/core/index.html.tmpl" "change" "/"].
Proof.
  eexists _, _. split; [reflexivity|].
  edestruct (addHtmlPlugin_success_effect
    (spa_client (Demo.builder [] [])) None true (Demo.builder [] []))
    as (_ & Hplugin & _ & _ & _ & _ & Hwatch & _); [reflexivity|].
  split; [exact Hplugin|exact Hwatch].
Defined.

(** The entry template is missing: the flag is on, no plugin is there. *)
Lemma addSkeletonPlugin_enabled_before_entry_witness :
  ∃ s',
    addSkeletonPlugin
      (spa_client
         (Demo.world (Demo.project (Demo.listed [0]) false) [Demo.home]
            DemoRuntime.no_templates))
      (Demo.world (Demo.project (Demo.listed [0]) false) [Demo.home]
         DemoRuntime.no_templates)
    = (Return (Rejected
         (SystemError "open"
            "/lavas/core/builder/../templates/entry-skeleton.tmpl")), s') ∧
    skeletonEnabled s' = true ∧ fs s' = DemoRuntime.no_templates.
Proof.
  refine (proj2 (addSkeletonPlugin_enabled_before_entry
    (spa_client
       (Demo.world (Demo.project (Demo.listed [0]) false) [Demo.home]
          DemoRuntime.no_templates))
    (Demo.world (Demo.project (Demo.listed [0]) false) [Demo.home]
       DemoRuntime.no_templates)
    [0]
    (Demo.world (Demo.project (Demo.listed [0]) false) [Demo.home]
       DemoRuntime.no_templates)
    (Demo.world (Demo.project (Demo.listed [0]) false)
       [DemoRuntime.resolved_home] DemoRuntime.no_templates)
    _ _) _).
  - reflexivity.
  - reflexivity.
  - reflexivity.
Defined.

Lemma addSkeletonPlugin_bundle_shape_witness :
  ∃ spa' s',
    addSkeletonPlugin
      (spa_client (Demo.builder [Demo.home; Demo.aliased] [0; 1]))
      (Demo.builder [Demo.home; Demo.aliased] [0; 1])
    = (Return (Fulfilled spa'), s') ∧
    spa' =
      mkWebpackCfg [("main", ["./core/entry-client.js"])] "spaclient" "/app"
        [OtherPlugin "define";
         SkeletonWebpackPlugin
           (mkWebpackCfg [("main", ["/app/.lavas/skeleton.js"])] "server" ""
              [OtherPlugin "define"] (mkResolve [("@", "/app")]))
           true "history" [0; 1] true]
        (mkResolve [("@", "/app")]).
Proof.
  eexists _, _. split; [reflexivity|].
  edestruct (addSkeletonPlugin_bundle_shape
    (spa_client (Demo.builder [Demo.home; Demo.aliased] [0; 1]))
    (Demo.builder [Demo.home; Demo.aliased] [0; 1]) [0; 1]
    (Demo.builder [Demo.home; Demo.aliased] [0; 1])
    (Demo.builder
       [DemoRuntime.resolved_home; DemoRuntime.resolved_aliased] [0; 1]))
    as [Hshape _]; [reflexivity..|].
  exact Hshape.
Defined.

Lemma addSkeletonPlugin_keeps_listed_routes_witness :
  config
    (addSkeletonPlugin
       (spa_client (Demo.builder [Demo.home; Demo.ghost] [0; 1]))
       (Demo.builder [Demo.home; Demo.ghost] [0; 1])).2
  = Demo.project (Demo.listed [0; 1]) false.
Proof.
  refine (proj1 (addSkeletonPlugin_keeps_listed_routes
    (spa_client (Demo.builder [Demo.home; Demo.ghost] [0; 1]))
    (Demo.builder [Demo.home; Demo.ghost] [0; 1])
    (mkSkeleton true (Some [0; 1])) 0 [1] _ _ _ _ _)).
  - reflexivity.
  - reflexivity.
  - reflexivity.
Defined.

Lemma createSPAConfig_skeleton_error_is_logged_witness :
  ∃ spa s',
    createSPAConfig false (Demo.builder [Demo.home; Demo.ghost] [0; 1])
      = (Return (Fulfilled spa), s') ∧
    (∃ o, plugins spa = [HtmlWebpackPlugin o; OtherPlugin "define"]) ∧
    console s' = [msg_not_existed "pages/Ghost.vue"] ∧
    skeletonEnabled s' = false.
Proof.
  eexists.
  eapply (createSPAConfig_skeleton_error_is_logged false
    (Demo.builder [Demo.home; Demo.ghost] [0; 1]) _ _
    (mkSkeleton true (Some [0; 1])) [0; 1] _
    (msg_not_existed "pages/Ghost.vue")).
  - reflexivity.
  - reflexivity.
  - reflexivity.
  - reflexivity.
  - reflexivity.
  - reflexivity.
Defined.

Lemma createSPAConfig_name_and_context_witness :
  ∃ spa s',
    createSPAConfig true (Demo.builder [Demo.home; Demo.aliased] [0; 1])
      = (Return (Fulfilled spa), s') ∧
    name spa = "spaclient" ∧ context spa = "/app" ∧
    resolve spa = mkResolve [("@", "/app")].
Proof.
  eexists _, _. split; [reflexivity|].
  eapply (createSPAConfig_name_and_context true
    (Demo.builder [Demo.home; Demo.aliased] [0; 1])).
  reflexivity.
Defined.

Lemma createSPAConfig_writes_under_lavas_witness :
  let s := Demo.builder [Demo.home; Demo.aliased] [0; 1] in
  fs (createSPAConfig false s).2 = Demo.disk ∨
  ∃ html f1,
    Demo.write "/app/.lavas/index.html.tmpl" html Demo.disk = Some f1 ∧
    (fs (createSPAConfig false s).2 = f1 ∨
     ∃ skeletons,
       Demo.write "/app/.lavas/skeleton.js" skeletons f1
         = Some (fs (createSPAConfig false s).2)).
Proof.
  refine (createSPAConfig_writes_under_lavas false
    (Demo.builder [Demo.home; Demo.aliased] [0; 1])
    (createSPAConfig false
       (Demo.builder [Demo.home; Demo.aliased] [0; 1])).1
    (createSPAConfig false
       (Demo.builder [Demo.home; Demo.aliased] [0; 1])).2 _).
  reflexivity.
Defined.

(** The demo project has no [middlewares] directory. *)
Lemma writeMiddleware_effect_witness :
  writeMiddleware
    (Demo.world (Demo.project None false) [] DemoRuntime.disk)
  = (Return (Fulfilled ()),
     Demo.world (Demo.project None false) []
       (("/app/.lavas/middleware.js", "export default []")
        :: DemoRuntime.disk)) ∧
  ∃ source text,
    Demo.read DemoRuntime.disk
      "/lavas/core/builder/../templates/middleware.tmpl" = Some source ∧
    DemoRuntime.render_isEmpty source true = inr text ∧
    Demo.write "/app/.lavas/middleware.js" text DemoRuntime.disk
      = Some (("/app/.lavas/middleware.js", "export default []")
              :: DemoRuntime.disk).
Proof.
  split; [reflexivity|].
  destruct (@writeMiddleware_effect Demo.platform DemoRuntime.runtime
    (Demo.world (Demo.project None false) [] DemoRuntime.disk)
    (Return (Fulfilled ()))
    (Demo.world (Demo.project None false) []
       (("/app/.lavas/middleware.js", "export default []")
        :: DemoRuntime.disk))
    eq_refl) as [(_ & Hwritten & _)|(e & Hrejected & _)].
  - exact Hwritten.
  - discriminate Hrejected.
Defined.

Lemma writeRuntimeConfig_effect_witness :
  Demo.write "/app/.lavas/config.json" "ssr:false,mode:history" Demo.disk
  = Some (("/app/.lavas/config.json", "ssr:false,mode:history")
          :: Demo.disk).
Proof.
  destruct (@writeRuntimeConfig_effect Demo.platform DemoRuntime.runtime
    (Demo.world (Demo.project None false) [] Demo.disk)
    (Return (Fulfilled ()))
    (Demo.world (Demo.project None false) []
       (("/app/.lavas/config.json", "ssr:false,mode:history") :: Demo.disk))
    eq_refl) as [(_ & Hwrite & _)|(Hrejected & _)].
  - exact Hwrite.
  - discriminate Hrejected.
Defined.
